(** * crawl_kde_wallpapers.py: a shallow embedding and its properties

    The script lists the Plasma 5 wallpaper plugins of the KDE Store through
    the OCS API, fetches the details of each one, downloads every source
    archive they link to and unpacks it.  This development embeds its
    functions as Rocq functions over an explicit world (file system, slept
    seconds, log of HTTP requests) and proves what they do.

    Python strings are sequences of Unicode code points; they are lists of
    code points here.  Library calls the script relies on (requests,
    ElementTree, tarfile, zipfile, urllib, str.lower) are parameters of the
    embedding, gathered in one record.  Calls into the local file system
    (mkdir, open, write, exists) are taken to succeed, paths are compared
    component by component, and what the script prints is left out. *)

From Stdlib Require Import ZArith NArith Ascii String List Lia Bool.
From stdpp Require Import base option list gmap.

Set Default Proof Using "Type".
Set Warnings "-register-all".

(** ** Python strings *)

Module PyStr.

Abbreviation char := N (only parsing).
Abbreviation str := (list N) (only parsing).

(** An ASCII literal as a Python string. *)
Definition py (s : string) : str := map N_of_ascii (list_ascii_of_string s).

(** [not s]: the empty string is falsy. *)
Definition is_empty (s : str) : bool := if s is [] then true else false.

(** [a or b] on strings. *)
Definition or_else (a b : str) : str := if is_empty a then b else a.

Definition str_eqb (a b : str) : bool := bool_decide (a = b).

Fixpoint startswith (s prefix : str) {struct prefix} : bool :=
  match prefix, s with
  | [], _ => true
  | _ :: _, [] => false
  | p :: prefix', c :: s' => N.eqb p c && startswith s' prefix'
  end.

(** [s.endswith(suffix)] *)
Definition endswith (s suffix : str) : bool := startswith (rev s) (rev suffix).

(** [sub in s] *)
Fixpoint contains (s sub : str) : bool :=
  startswith s sub ||
  match s with
  | [] => false
  | _ :: s' => contains s' sub
  end.

(** [c in chars], for a single character. *)
Definition char_in (chars : str) (c : char) : bool := existsb (N.eqb c) chars.

Fixpoint lstrip (chars s : str) : str :=
  match s with
  | [] => []
  | c :: s' => if char_in chars c then lstrip chars s' else s
  end.

Definition rstrip (chars s : str) : str := rev (lstrip chars (rev s)).

(** [s.strip(chars)] *)
Definition strip (chars s : str) : str := rstrip chars (lstrip chars s).

(** [str.isspace] on one code point, which is what [\s] matches in a
    pattern over [str]: the ASCII table of CPython and the code points
    of Unicode with the White_Space property or bidirectional type WS,
    B or S. *)
Definition isspace (c : char) : bool :=
  ((9 <=? c) && (c <=? 13) || (28 <=? c) && (c <=? 32)
   || (c =? 133) || (c =? 160) || (c =? 5760)
   || (8192 <=? c) && (c <=? 8202)
   || (c =? 8232) || (c =? 8233) || (c =? 8239) || (c =? 8287)
   || (c =? 12288))%N.

(** [re.sub('[...]', repl, s)] for a character class and a one-character
    replacement. *)
Definition re_sub_class (class : char -> bool) (repl : char) (s : str) : str :=
  map (fun c => if class c then repl else c) s.

(** [re.sub('C+', repl, s)] for a character class [C]: every maximal run
    of characters of the class becomes one [repl].  [in_run] says that the
    previous character belonged to the run being replaced. *)
Fixpoint re_sub_runs (class : char -> bool) (repl : char) (in_run : bool) (s : str) : str :=
  match s with
  | [] => []
  | c :: s' =>
      if class c
      then (if in_run then re_sub_runs class repl true s'
            else repl :: re_sub_runs class repl true s')
      else c :: re_sub_runs class repl false s'
  end.

(** [os.path.basename(p)]: what follows the last slash. *)
Fixpoint basename_aux (acc p : str) : str :=
  match p with
  | [] => acc
  | c :: p' => if N.eqb c 47 then basename_aux [] p' else basename_aux (acc ++ [c]) p'
  end.

Definition basename (p : str) : str := basename_aux [] p.

(** [s.split(sep)] for a one-character separator. *)
Fixpoint split_aux (sep : char) (acc : str) (s : str) : list str :=
  match s with
  | [] => [acc]
  | c :: s' => if N.eqb c sep then acc :: split_aux sep [] s' else split_aux sep (acc ++ [c]) s'
  end.

Definition split (sep : char) (s : str) : list str := split_aux sep [] s.

(** [sep.join(parts)] *)
Fixpoint join (sep : str) (parts : list str) : str :=
  match parts with
  | [] => []
  | [p] => p
  | p :: rest => p ++ sep ++ join sep rest
  end.

(** [str.lower] on ASCII text: only the letters A-Z change.  On other
    code points Python consults the Unicode tables; the pipeline takes the
    real function as a parameter and this one serves to run examples on
    ASCII input. *)
Definition ascii_lower (s : str) : str :=
  map (fun c => if ((65 <=? c) && (c <=? 90))%N then (c + 32)%N else c) s.

End PyStr.

Import PyStr.

(** ** The filename sanitizer (lines 114-120) *)

(** The class of the first substitution: less-than, greater-than, colon,
    double quote, slash, backslash, bar, question mark, star. *)
Definition forbidden : str := [60; 62; 58; 34; 47; 92; 124; 63; 42]%N.

Definition is_forbidden (c : char) : bool := char_in forbidden c.

Definition sanitize_filename (name : str) : str :=
  let name := re_sub_class is_forbidden 95%N name in
  let name := re_sub_runs isspace 95%N false name in
  let name := strip (py "._") name in
  or_else name (py "unknown").

(** ** XML documents, as ElementTree presents them *)

Definition default_text (t : option str) : str := if t is Some s then s else [].

Inductive element :=
| Element (tag : str) (text : option str) (children : list element).

Definition etag (e : element) : str := let 'Element t _ _ := e in t.
Definition etext (e : element) : option str := let 'Element _ t _ := e in t.
Definition echildren (e : element) : list element := let 'Element _ _ cs := e in cs.

(** [e.iter()]: the element and everything below it, in document order. *)
Fixpoint iter (e : element) : list element :=
  match e with
  | Element _ _ cs =>
      e :: (fix below (l : list element) : list element :=
              match l with
              | [] => []
              | c :: l' => iter c ++ below l'
              end) cs
  end.

(** [e.findall(".//name")]: the elements below [e] (not [e] itself) with
    that tag, in document order. *)
Definition findall_below (name : str) (e : element) : list element :=
  List.filter (fun d => str_eqb (etag d) name) (flat_map iter (echildren e)).

(** [e.find(".//name")] *)
Definition find_below (name : str) (e : element) : option element :=
  head (findall_below name e).

(** [e.findtext(name, default)]: the text of the first child with that tag,
    the empty string when that child has no text, [default] when there is no
    such child. *)
Definition findtext (name default : str) (e : element) : str :=
  match List.find (fun c => str_eqb (etag c) name) (echildren e) with
  | None => default
  | Some c => default_text (etext c)
  end.

(** ** Paths and the file system *)

(** A [pathlib] path: whether it is absolute, and its components. *)
Abbreviation path := (bool * list (list N))%type (only parsing).

Inductive node :=
| File (content : list Byte.byte)
| Dir.

Abbreviation filesystem := (gmap (bool * list (list N)) node) (only parsing).

(** The components of a string given to [pathlib]: empty components and
    single dots disappear. *)
Definition segments (s : str) : list str :=
  List.filter (fun c => negb (is_empty c || str_eqb c [46%N])) (split 47 s).

(** [p / s]: an absolute [s] replaces [p]. *)
Definition joinpath (p : path) (s : str) : path :=
  if startswith s [47%N] then (true, segments s) else (p.1, p.2 ++ segments s).

(** [p.parent] *)
Definition parent (p : path) : path := (p.1, removelast p.2).

(** [str(p)] *)
Definition path_str (p : path) : str :=
  match p with
  | (true, cs) => 47%N :: join [47%N] cs
  | (false, []) => [46%N]
  | (false, cs) => join [47%N] cs
  end.

(** The path and the directories above it, outermost first. *)
Definition ancestry (p : path) : list path :=
  map (fun n => (p.1, take n p.2)) (seq 1 (length p.2)).

Definition ensure_dir (m : filesystem) (q : path) : filesystem :=
  if m !! q is Some _ then m else <[q := Dir]> m.

(** ** The world the script runs in *)

Record world := World {
  fs : filesystem;          (* what is on disk *)
  slept : Z;                (* seconds spent in [time.sleep] so far *)
  requests : list str;      (* URLs given to [session.get] so far, oldest first *)
}.

Definition set_fs (m : filesystem) (w : world) : world :=
  World m (slept w) (requests w).

(** What [session.get] hands back.  [document] is the tree
    [ET.fromstring(response.text)] builds, [None] when the text is not
    well-formed XML.  [body] lists the chunks [iter_content] yields, and
    [body_breaks] says that it raises once they are delivered (the
    connection drops or the encoding is wrong) instead of ending. *)
Record http_response := Response {
  status_code : Z;
  document : option element;
  body : list (list Byte.byte);
  body_breaks : bool;
}.

Inductive exn :=
| ConnectionError        (* [session.get] fails: timeout, refused connection *)
| HTTPError              (* [raise_for_status] on a 4xx or 5xx status *)
| ChunkedEncodingError   (* the body stream breaks *)
| ParseError             (* [ET.fromstring] on malformed XML *)
| ApiError (status : option str)
| ExtractError.          (* whatever [tarfile] or [zipfile] raises *)

(** [isinstance(e, requests.RequestException)] *)
Definition is_RequestException (e : exn) : bool :=
  match e with
  | ConnectionError | HTTPError | ChunkedEncodingError => true
  | _ => false
  end.

(** Everything outside the script.  [remote n url] answers the request for
    [url] made after [n] earlier requests, [None] when no response arrives.
    The extractors read the archive at their first argument from the file
    system and unpack it under the second; they return the file system they
    leave behind and whether they completed ([false]: they raised). *)
Record environment := Environment {
  lower : str -> str;
  urlparse_path : str -> str;
  remote : nat -> str -> option http_response;
  tar_extractall : path -> path -> filesystem -> bool * filesystem;
  zip_extractall : path -> path -> filesystem -> bool * filesystem;
}.

(** ** Computations: state and exceptions *)

Inductive result (A : Type) :=
| Ok (a : A)
| Raise (e : exn).
Arguments Ok {A} a.
Arguments Raise {A} e.

Definition M (A : Type) : Type := world -> result A * world.

Definition ret {A} (a : A) : M A := fun w => (Ok a, w).

Definition raise {A} (e : exn) : M A := fun w => (Raise e, w).

Definition bind {A B} (m : M A) (k : A -> M B) : M B :=
  fun w =>
    match m w with
    | (Ok a, w') => k a w'
    | (Raise e, w') => (Raise e, w')
    end.

(** [try: m  except <handles>: handler] *)
Definition try_except {A} (m : M A) (handles : exn -> bool) (handler : exn -> M A) : M A :=
  fun w =>
    match m w with
    | (Raise e, w') => if handles e then handler e w' else (Raise e, w')
    | r => r
    end.

Declare Scope py_scope.
Delimit Scope py_scope with py.
Notation "x <~ m ;; k" := (bind m (fun x => k))
  (at level 100, m at next level, right associativity) : py_scope.
Notation "m ;;; k" := (bind m (fun _ => k))
  (at level 100, right associativity) : py_scope.
Open Scope py_scope.

(** What the body of a [for] loop does next: go on with the following
    element ([continue], or the end of the body), or leave the function. *)
Inductive flow (R : Type) :=
| Next
| Return (r : R).
Arguments Next {R}.
Arguments Return {R} r.

Fixpoint for_each {A R} (l : list A) (body : A -> M (flow R)) : M (flow R) :=
  match l with
  | [] => ret Next
  | a :: l' =>
      f <~ body a ;;
      match f with
      | Next => for_each l' body
      | Return r => ret (Return r)
      end
  end.

(** A [for] loop whose body updates local variables [acc]. *)
Fixpoint for_acc {A S} (l : list A) (body : S -> A -> M S) (acc : S) : M S :=
  match l with
  | [] => ret acc
  | a :: l' => acc' <~ body acc a ;; for_acc l' body acc'
  end.

(** [range(n)] *)
Definition range (n : nat) : list Z := map Z.of_nat (seq 0 n).

(** ** The script *)

(** Configuration (lines 19-24). *)
Definition OCS_API_URL : str := py "https://api.opendesktop.org/ocs/v1".
Definition CATEGORY_ID : Z := 419.
Definition OUTPUT_DIR : path := (false, [py "wallpaper-example"]).
Definition DELAY_BETWEEN_REQUESTS : Z := 3.
Definition MAX_RETRIES : nat := 3.
Definition RETRY_DELAY : Z := 10.

(** The records the script builds as dictionaries. *)
Record item := Item {
  item_id : str;
  item_name : str;
  item_version : str;
  item_personid : str;
  item_description : str;
  item_downloadlink1 : str;
}.

Record download := Download {
  dl_url : str;
  dl_name : str;
}.

Record details := Details {
  det_id : str;
  det_name : str;
  det_version : str;
  det_personid : str;
  det_description : str;
  det_downloads : list download;
}.

Record counters := Counters {
  downloaded_count : Z;
  failed_count : Z;
  skipped_count : Z;
}.

Definition add_downloaded (c : counters) : counters :=
  Counters (downloaded_count c + 1) (failed_count c) (skipped_count c).
Definition add_failed (c : counters) : counters :=
  Counters (downloaded_count c) (failed_count c + 1) (skipped_count c).
Definition add_skipped (c : counters) : counters :=
  Counters (downloaded_count c) (failed_count c) (skipped_count c + 1).

(** The decimal text of a one-digit number, as an f-string prints it. *)
Definition digit (i : nat) : str := [N.of_nat (48 + i)].

(** The suffixes [extract_archive] hands to [tarfile] (line 162). *)
Definition tar_suffixes : list str :=
  [py ".tar.gz"; py ".tgz"; py ".tar.xz"; py ".tar.bz2"].

(** The extensions of the source-archive test in [main] (line 230). *)
Definition source_extensions : list str :=
  [py ".tar.gz"; py ".tar.xz"; py ".tgz"; py ".zip"; py ".tar.bz2"].

(** The URL [requests] builds from the address and the parameters of the
    listing call (lines 42-47). *)
Definition listing_url : str :=
  OCS_API_URL ++ py "/content/data" ++ py "?categories=419&pagesize=100&page=0".

Section Script.

Context (env : environment).

(** [time.sleep(seconds)] *)
Definition sleep (seconds : Z) : M unit :=
  fun w => (Ok tt, World (fs w) (slept w + seconds) (requests w)).

(** [session.get(url, ...)] *)
Definition session_get (url : str) : M http_response :=
  fun w =>
    let w' := World (fs w) (slept w) (requests w ++ [url]) in
    match remote env (length (requests w)) url with
    | Some response => (Ok response, w')
    | None => (Raise ConnectionError, w')
    end.

(** [response.raise_for_status()] *)
Definition raise_for_status (response : http_response) : M unit :=
  if (400 <=? status_code response)%Z && (status_code response <? 600)%Z
  then raise HTTPError
  else ret tt.

(** [ET.fromstring(response.text)] *)
Definition fromstring (response : http_response) : M element :=
  match document response with
  | Some root => ret root
  | None => raise ParseError
  end.

(** [p.exists()] *)
Definition path_exists (p : path) : M bool :=
  fun w => (Ok (if fs w !! p is Some _ then true else false), w).

(** [p.mkdir(parents=True, exist_ok=True)] *)
Definition mkdir_parents (p : path) : M unit :=
  fun w => (Ok tt, set_fs (foldl ensure_dir (fs w) (ancestry p)) w).

(** Lines 142-144: open the file for writing, which creates or empties it,
    and write the chunks as they arrive. *)
Definition write_body (output_path : path) (response : http_response) : M unit :=
  fun w =>
    let w' := set_fs (<[output_path := File (concat (body response))]> (fs w)) w in
    if body_breaks response then (Raise ChunkedEncodingError, w') else (Ok tt, w').

(** Lines 40-77. *)
Definition get_all_content_items : M (list item) :=
  response <~ session_get listing_url ;;
  raise_for_status response ;;;
  root <~ fromstring response ;;
  match find_below (py "status") root with
  | Some status =>
      if negb (bool_decide (etext status = Some (py "ok")))
      then raise (ApiError (etext status))
      else ret tt
  | None => ret tt
  end ;;;
  ret (map (fun content =>
              {| item_id := findtext (py "id") [] content;
                 item_name := findtext (py "name") [] content;
                 item_version := findtext (py "version") [] content;
                 item_personid := findtext (py "personid") [] content;
                 item_description := findtext (py "description") [] content;
                 item_downloadlink1 := findtext (py "downloadlink1") [] content |})
           (findall_below (py "content") root)).

(** Lines 93-102: the download links of a content element. *)
Definition collect_downloads (content : element) : list download :=
  flat_map (fun i =>
              let link := findtext (py "downloadlink" ++ digit i) [] content in
              let name := findtext (py "downloadname" ++ digit i) [] content in
              if is_empty link then []
              else [{| dl_url := link; dl_name := or_else name (py "file" ++ digit i) |}])
           (seq 1 9).

(** Lines 80-111. *)
Definition get_content_details (content_id : str) : M (option details) :=
  let url := OCS_API_URL ++ py "/content/data/" ++ content_id in
  response <~ session_get url ;;
  raise_for_status response ;;;
  root <~ fromstring response ;;
  match find_below (py "content") root with
  | None => ret None
  | Some content =>
      ret (Some {| det_id := findtext (py "id") [] content;
                   det_name := findtext (py "name") [] content;
                   det_version := findtext (py "version") [] content;
                   det_personid := findtext (py "personid") [] content;
                   det_description := findtext (py "description") [] content;
                   det_downloads := collect_downloads content |})
  end.

(** Lines 126-155: one turn of the retry loop. *)
Definition download_attempt (url : str) (output_path : path) (attempt : Z) : M (flow bool) :=
  try_except
    (response <~ session_get url ;;
     if (status_code response =? 429)%Z then
       let wait_time := (RETRY_DELAY * (attempt + 1))%Z in
       sleep wait_time ;;;
       ret Next
     else
       raise_for_status response ;;;
       mkdir_parents (parent output_path) ;;;
       write_body output_path response ;;;
       ret (Return true))
    is_RequestException
    (fun e =>
       if (attempt <? Z.of_nat MAX_RETRIES - 1)%Z then
         let wait_time := (RETRY_DELAY * (attempt + 1))%Z in
         sleep wait_time ;;;
         ret Next
       else
         ret (Return false)).

(** Lines 123-156. *)
Definition download_file (url : str) (output_path : path) : M bool :=
  f <~ for_each (range MAX_RETRIES) (download_attempt url output_path) ;;
  match f with
  | Return b => ret b
  | Next => ret false
  end.

(** A call of one of the archive libraries. *)
Definition run_extractor (x : path -> path -> filesystem -> bool * filesystem)
    (archive_path extract_dir : path) : M unit :=
  fun w =>
    let '(completed, m) := x archive_path extract_dir (fs w) in
    (if completed then Ok tt else Raise ExtractError, set_fs m w).

(** Lines 159-174. *)
Definition extract_archive (archive_path extract_dir : path) : M bool :=
  r <~ try_except
         (if existsb (endswith (path_str archive_path)) tar_suffixes then
            run_extractor (tar_extractall env) archive_path extract_dir ;;;
            ret (Return true)
          else if endswith (path_str archive_path) (py ".zip") then
            run_extractor (zip_extractall env) archive_path extract_dir ;;;
            ret (Return true)
          else ret Next)
         (fun _ => true)
         (fun e => ret Next) ;;
  match r with
  | Return b => ret b
  | Next => ret false
  end.

(** Line 230: does the name look like a source archive? *)
Definition is_source_file (filename : str) : bool :=
  existsb (fun ext => contains (lower env filename) ext) source_extensions.

(** Lines 224-227: the name the link itself suggests, the last segment of
    the path of its URL or else the name the API gives. *)
Definition derived_filename (dl : download) : str :=
  let filename := basename (urlparse_path env (dl_url dl)) in
  if is_empty filename then dl_name dl else filename.

(** Lines 229-236: the name a link is saved under, [None] when the link is
    passed over as not being source code. *)
Definition target_filename (plugin_name : str) (dl : download) : option str :=
  let filename := derived_filename dl in
  if negb (is_source_file filename) then
    if contains (lower env (dl_url dl)) (py "download")
    then Some (plugin_name ++ py ".tar.gz")
    else None
  else Some filename.

(** Lines 238-256: save the link under [filename], unless that is there. *)
Definition save_link (plugin_dir : path) (c : counters) (url filename : str) : M counters :=
  let output_path := joinpath plugin_dir filename in
  present <~ path_exists output_path ;;
  if present then ret (add_skipped c)
  else
    sleep DELAY_BETWEEN_REQUESTS ;;;
    ok <~ download_file url output_path ;;
    if ok then
      let c := add_downloaded c in
      let extract_dir := joinpath plugin_dir (py "src") in
      unpacked <~ path_exists extract_dir ;;
      (if negb unpacked
       then extract_archive output_path extract_dir ;;; ret tt
       else ret tt) ;;;
      ret c
    else ret (add_failed c).

(** Lines 218-256: the body of the loop over the links of one plugin. *)
Definition process_link (plugin_name : str) (plugin_dir : path)
    (c : counters) (dl : download) : M counters :=
  let url := dl_url dl in
  if is_empty url then ret c
  else
    match target_filename plugin_name dl with
    | None => ret c
    | Some filename => save_link plugin_dir c url filename
    end.

(** Lines 202-256: the body of the loop over the plugins. *)
Definition process_item (c : counters) (it : item) : M counters :=
  let plugin_name := sanitize_filename (item_name it) in
  let plugin_dir := joinpath OUTPUT_DIR plugin_name in
  sleep DELAY_BETWEEN_REQUESTS ;;;
  found <~ get_content_details (item_id it) ;;
  match found with
  | None => ret (add_failed c)
  | Some d =>
      if det_downloads d is [] then ret (add_failed c)
      else for_acc (det_downloads d) (process_link plugin_name plugin_dir) c
  end.

(** Lines 177-265; what is printed is left out. *)
Definition main : M counters :=
  mkdir_parents OUTPUT_DIR ;;;
  items <~ get_all_content_items ;;
  for_acc items process_item (Counters 0 0 0).

End Script.

(** ** Concrete surroundings, to run the script on examples *)

Module Sample.

(** [s[:i]] and [s[i:]] at the first character satisfying [stop]. *)
Fixpoint upto (stop : char -> bool) (s : str) : str :=
  match s with
  | [] => []
  | c :: s' => if stop c then [] else c :: upto stop s'
  end.

Fixpoint from (stop : char -> bool) (s : str) : str :=
  match s with
  | [] => []
  | c :: s' => if stop c then s else from stop s'
  end.

Definition is_scheme_char (c : char) : bool :=
  ((97 <=? c) && (c <=? 122) || (65 <=? c) && (c <=? 90)
   || (48 <=? c) && (c <=? 57) || (c =? 43) || (c =? 45) || (c =? 46))%N.

(** [urlparse(url).path] for an http or https URL: the scheme and the
    authority go, then the fragment, the query, and the parameters of the
    last segment. *)
Definition http_url_path (url : str) : str :=
  let scheme := upto (N.eqb 58) url in
  let rest :=
    if negb (is_empty scheme) && forallb is_scheme_char scheme
       && startswith (from (N.eqb 58) url) [58%N]
    then drop 1 (from (N.eqb 58) url) else url in
  let rest :=
    if startswith rest (py "//")
    then from (char_in (py "/?#")) (drop 2 rest) else rest in
  let rest := upto (N.eqb 35) rest in
  let rest := upto (N.eqb 63) rest in
  let last := basename rest in
  take (length rest - length last) rest ++ upto (N.eqb 59) last.

(** An archive library that does nothing but create the directory it
    unpacks into, and one that raises at once. *)
Definition unpack_nothing (archive_path extract_dir : path) (m : filesystem)
    : bool * filesystem :=
  (true, ensure_dir m extract_dir).

Definition unpack_raises (archive_path extract_dir : path) (m : filesystem)
    : bool * filesystem :=
  (false, m).

(** A server that answers every request the same way. *)
Definition always (answer : option http_response) : nat -> str -> option http_response :=
  fun _ _ => answer.

Definition too_many_requests : http_response :=
  {| status_code := 429; document := None; body := []; body_breaks := false |}.

Definition surroundings (server : nat -> str -> option http_response) : environment :=
  {| lower := ascii_lower;
     urlparse_path := http_url_path;
     remote := server;
     tar_extractall := unpack_nothing;
     zip_extractall := unpack_nothing |}.

Definition empty_world : world := World ∅ 0 [].

(** The end-to-end scenario: one plugin, one archive. *)
Definition leaf (name value : str) : element := Element name (Some value) [].

Definition scenario_listing : element :=
  Element (py "ocs") None
    [Element (py "meta") None [leaf (py "status") (py "ok")];
     Element (py "data") None
       [Element (py "content") None
          [leaf (py "id") (py "42"); leaf (py "name") (py "Cool Wall/paper")]]].

Definition scenario_details : element :=
  Element (py "ocs") None
    [Element (py "data") None
       [Element (py "content") None
          [leaf (py "id") (py "42"); leaf (py "name") (py "Cool Wall/paper");
           leaf (py "downloadlink1") (py "https://x/files/cool.tar.gz")]]].

Definition archive_bytes : list (list Byte.byte) :=
  [[Byte.x1f; Byte.x8b]; [Byte.x08]].

Definition scenario_server (n : nat) (url : str) : option http_response :=
  if str_eqb url listing_url then
    Some {| status_code := 200; document := Some scenario_listing; body := []; body_breaks := false |}
  else if str_eqb url (OCS_API_URL ++ py "/content/data/42") then
    Some {| status_code := 200; document := Some scenario_details; body := []; body_breaks := false |}
  else if str_eqb url (py "https://x/files/cool.tar.gz") then
    Some {| status_code := 200; document := None; body := archive_bytes; body_breaks := false |}
  else None.

End Sample.

(** ** Vocabulary of the statements *)

(** A character the sanitizer lets through: outside the forbidden class and
    not white space. *)
Definition safe_char (c : char) : Prop :=
  is_forbidden c = false /\ isspace c = false.

(** A response that ends an attempt before any byte of the body is asked
    for: none at all, a 429, or a status [raise_for_status] rejects. *)
Definition refused (answer : option http_response) : bool :=
  match answer with
  | None => true
  | Some r =>
      (status_code r =? 429)%Z
      || (400 <=? status_code r)%Z && (status_code r <? 600)%Z
  end.

(** The seconds the handler of line 148 waits after attempt [attempt]. *)
Definition backoff (attempt : Z) : Z := RETRY_DELAY * (attempt + 1).

(** Reading of the specification: a download that fails leaves nothing at a
    destination that was free. *)
Definition failed_download_leaves_nothing : Prop :=
  forall (env : environment) (url : str) (output_path : path) (w : world),
    (download_file env url output_path w).1 = Ok false ->
    fs w !! output_path = None ->
    fs (download_file env url output_path w).2 !! output_path = None.

(** A server whose connection drops after the first chunk of every body. *)
Definition dropping_server : nat -> str -> option http_response :=
  Sample.always
    (Some {| status_code := 200; document := None;
             body := [[Byte.x1f; Byte.x8b]]; body_breaks := true |}).

(** The worlds one attempt of the download passes through: the request is
    logged; the handler of lines 148-155 waits or gives up; the body is
    written to the destination. *)
Definition logged (url : str) (w : world) : world :=
  World (fs w) (slept w) (requests w ++ [url]).

Definition waited (seconds : Z) (w : world) : world :=
  World (fs w) (slept w + seconds) (requests w).

Definition after_failure (attempt : Z) (w : world) : result (flow bool) * world :=
  if (attempt <? Z.of_nat MAX_RETRIES - 1)%Z
  then (Ok Next, waited (backoff attempt) w)
  else (Ok (Return false), w).

Definition saved (output_path : path) (r : http_response) (w : world) : world :=
  set_fs (<[output_path := File (concat (body r))]>
            (foldl ensure_dir (fs w) (ancestry (parent output_path)))) w.

(** The archive of the end-to-end scenario and where it is saved. *)
Definition cool_url : str := py "https://x/files/cool.tar.gz".

Definition cool_path : path :=
  (false, [py "wallpaper-example"; py "Cool_Wall_paper"; py "cool.tar.gz"]).

Definition dropping : environment := Sample.surroundings dropping_server.

(** Where the files of the dispatch scenario would lie. *)
Definition plugin_file (filename : string) : path :=
  (false, [py "wallpaper-example"; py "plugin"; py filename]).

Definition plugin_src : path :=
  (false, [py "wallpaper-example"; py "plugin"; py "src"]).

(** Reading of the specification: whatever happens to a link, one of the
    three counters goes up by one. *)
Definition every_link_counted : Prop :=
  forall (env : environment) (plugin_name : str) (plugin_dir : path)
         (c : counters) (dl : download) (w : world),
    is_empty (dl_url dl) = false ->
    exists c' w',
      process_link env plugin_name plugin_dir c dl w = (Ok c', w') /\
      (c' = add_downloaded c \/ c' = add_skipped c \/ c' = add_failed c).

(** Reading of the specification: for a link whose own name shows no
    archive extension, the literal text "download" in the URL decides
    between saving it under the made-up name and passing it over. *)
Definition literal_download_rule : Prop :=
  forall (env : environment) (plugin_name : str) (plugin_dir : path)
         (c : counters) (dl : download) (w : world),
    is_empty (dl_url dl) = false ->
    is_source_file env (derived_filename env dl) = false ->
    if contains (dl_url dl) (py "download")
    then process_link env plugin_name plugin_dir c dl w =
         save_link env plugin_dir c (dl_url dl) (plugin_name ++ py ".tar.gz") w
    else process_link env plugin_name plugin_dir c dl w = (Ok c, w).

(** Reading of the specification: the details carry the id that was looked
    up. *)
Definition detail_id_is_lookup_id : Prop :=
  forall (env : environment) (content_id : str) (w : world) (d : details) (w' : world),
    get_content_details env content_id w = (Ok (Some d), w') ->
    det_id d = content_id.

(** A server that delivers the two chunks of [Sample.archive_bytes] for
    every URL. *)
Definition serving : environment :=
  Sample.surroundings
    (Sample.always
       (Some {| status_code := 200; document := None;
                body := Sample.archive_bytes; body_breaks := false |})).

(** A server that describes plugin 7 whatever it is asked. *)
Definition plugin_seven : element :=
  Element (py "ocs") None
    [Element (py "data") None
       [Element (py "content") None
          [Sample.leaf (py "id") (py "7"); Sample.leaf (py "name") (py "Seven")]]].

Definition mislabelling : environment :=
  Sample.surroundings
    (Sample.always
       (Some {| status_code := 200; document := Some plugin_seven;
                body := []; body_breaks := false |})).

(** Links of the examples. *)
Definition readme_link : download :=
  {| dl_url := py "https://x/files/readme.txt"; dl_name := py "readme" |}.

Definition shouting_link : download :=
  {| dl_url := py "https://x/DOWNLOAD/1"; dl_name := py "file1" |}.

Definition notes_link : download :=
  {| dl_url := py "https://x/files/notes.zip.txt"; dl_name := py "notes" |}.

Definition plugin_dir_of (name : string) : path :=
  (false, [py "wallpaper-example"; py name]).

(** A server whose answers hold no content element. *)
Definition empty_handed : environment :=
  Sample.surroundings
    (Sample.always
       (Some {| status_code := 200; document := Some (Element (py "ocs") None []);
                body := []; body_breaks := false |})).

Definition plugin_42 : item :=
  {| item_id := py "42"; item_name := py "Cool Wall/paper"; item_version := [];
     item_personid := []; item_description := []; item_downloadlink1 := [] |}.

Definition scenario : environment := Sample.surroundings Sample.scenario_server.

Definition scenario_found : details :=
  {| det_id := py "42"; det_name := py "Cool Wall/paper"; det_version := [];
     det_personid := []; det_description := [];
     det_downloads := [{| dl_url := cool_url; dl_name := py "file1" |}] |}.

(** A server whose answer to a URL does not depend on what was asked
    before: the same remote responses on every run. *)
Definition stateless (server : nat -> str -> option http_response) : Prop :=
  forall n m url, server n url = server m url.

(** An archive library that removes nothing from the disk. *)
Definition keeps_files (x : path -> path -> filesystem -> bool * filesystem) : Prop :=
  forall archive_path extract_dir m q,
    is_Some (m !! q) -> is_Some ((x archive_path extract_dir m).2 !! q).

(** Everything present in [m] is present in [m']. *)
Definition within (m m' : filesystem) : Prop :=
  forall q, is_Some (m !! q) -> is_Some (m' !! q).

(** The number of outcomes counted. *)
Definition total (c : counters) : Z :=
  downloaded_count c + failed_count c + skipped_count c.

(** How the counters of a second pass over some links (from [c2] to [c2'])
    compare with those of the first pass over them (from [c1] to [c1']):
    nothing is downloaded, what the first pass downloaded or skipped is
    skipped, and as many outcomes are counted. *)
Definition second_pass (c1 c1' c2 c2' : counters) : Prop :=
  downloaded_count c2' = downloaded_count c2 /\
  (skipped_count c2' - skipped_count c2 >=
   (downloaded_count c1' - downloaded_count c1) + (skipped_count c1' - skipped_count c1))%Z /\
  (total c2' - total c2 = total c1' - total c1)%Z.

(** Reading of the specification: what the first run downloads is what the
    second run skips. *)
Definition second_run_skips_what_first_downloaded : Prop :=
  forall (env : environment),
    stateless (remote env) ->
    keeps_files (tar_extractall env) -> keeps_files (zip_extractall env) ->
    forall (w0 : world) (c1 : counters) (w1 : world) (c2 : counters) (w2 : world),
      fs w0 = ∅ ->
      main env w0 = (Ok c1, w1) ->
      main env (World (fs w1) 0 []) = (Ok c2, w2) ->
      downloaded_count c2 = 0%Z /\ skipped_count c2 = downloaded_count c1.

(** A plugin that lists the same archive twice. *)
Definition twice_details : element :=
  Element (py "ocs") None
    [Element (py "data") None
       [Element (py "content") None
          [Sample.leaf (py "id") (py "42"); Sample.leaf (py "name") (py "Cool Wall/paper");
           Sample.leaf (py "downloadlink1") cool_url;
           Sample.leaf (py "downloadlink2") cool_url]]].

Definition twice_server (n : nat) (url : str) : option http_response :=
  if str_eqb url (OCS_API_URL ++ py "/content/data/42") then
    Some {| status_code := 200; document := Some twice_details; body := []; body_breaks := false |}
  else Sample.scenario_server n url.

Definition twice : environment := Sample.surroundings twice_server.

(** ** Vocabulary of the further properties *)

(** The address of the detail lookup (line 82). *)
Definition details_url (content_id : str) : str :=
  OCS_API_URL ++ py "/content/data/" ++ content_id.

(** [raise_for_status] rejects the status. *)
Definition is_error_status (r : http_response) : bool :=
  (400 <=? status_code r)%Z && (status_code r <? 600)%Z.

(** The text of the i-th numbered link field of a content element. *)
Definition downloadlink (content : element) (i : nat) : str :=
  findtext (py "downloadlink" ++ digit i) [] content.

(** A link as the detail fetcher hands them out: with a URL and a name. *)
Definition wellformed_link (dl : download) : Prop :=
  is_empty (dl_url dl) = false /\ is_empty (dl_name dl) = false.

(** The item the listing fetcher builds from a content element
    (lines 67-74). *)
Definition item_of (content : element) : item :=
  {| item_id := findtext (py "id") [] content;
     item_name := findtext (py "name") [] content;
     item_version := findtext (py "version") [] content;
     item_personid := findtext (py "personid") [] content;
     item_description := findtext (py "description") [] content;
     item_downloadlink1 := findtext (py "downloadlink1") [] content |}.

(** An answer that makes an attempt of the download fail through the
    handler of line 148: none at all, or an error status other than 429. *)
Definition rejected (answer : option http_response) : bool :=
  match answer with
  | None => true
  | Some r => negb (status_code r =? 429)%Z && is_error_status r
  end.

(** A link that [main] does not pass over. *)
Definition kept (env : environment) (plugin_name : str) (dl : download) : bool :=
  negb (is_empty (dl_url dl)) &&
  (if target_filename env plugin_name dl is Some _ then true else false).

(** Between [w] and [w'] the script slept at least DELAY_BETWEEN_REQUESTS
    seconds for each request it made. *)
Definition paced (w w' : world) : Prop :=
  length (requests w) <= length (requests w') /\
  (slept w' - slept w >=
   DELAY_BETWEEN_REQUESTS *
   (Z.of_nat (length (requests w')) - Z.of_nat (length (requests w))))%Z.

(** The world once OUTPUT_DIR is made (line 185). *)
Definition prepared (w : world) : world :=
  set_fs (ensure_dir (fs w) OUTPUT_DIR) w.

(** Servers for the examples: the API reports a failure; the details of a
    plugin are not found; a plugin has three links. *)
Definition failing_listing : element :=
  Element (py "ocs") None
    [Element (py "meta") None [Sample.leaf (py "status") (py "failed")]].

Definition api_down : environment :=
  Sample.surroundings
    (Sample.always
       (Some {| status_code := 200; document := Some failing_listing;
                body := []; body_breaks := false |})).

Definition not_found : http_response :=
  {| status_code := 404; document := None; body := []; body_breaks := false |}.

Definition details_missing_server (n : nat) (url : str) : option http_response :=
  if str_eqb url listing_url then Sample.scenario_server n url else Some not_found.

Definition details_missing : environment := Sample.surroundings details_missing_server.

Definition three_links : element :=
  Element (py "content") None
    [Sample.leaf (py "id") (py "42");
     Sample.leaf (py "downloadlink1") (py "https://x/a.zip");
     Sample.leaf (py "downloadlink2") (py "https://x/b.zip");
     Sample.leaf (py "downloadlink3") (py "https://x/c.zip");
     Sample.leaf (py "downloadname2") (py "second")].

Definition unreachable : environment := Sample.surroundings (Sample.always None).

Definition throttling : environment :=
  Sample.surroundings (Sample.always (Some Sample.too_many_requests)).

(** A disk with one file on it, for the examples. *)
Definition notes_path : path := (false, [py "notes.txt"]).

Definition with_notes : world :=
  World {[ notes_path := File [Byte.x68; Byte.x69] ]} 0 [].

Definition archive_response : http_response :=
  {| status_code := 200; document := None;
     body := Sample.archive_bytes; body_breaks := false |}.

(** A disk on which the src directory of the plugin is there already. *)
Definition with_src : world := World {[ plugin_src := Dir ]} 0 [].

Definition plugin_zip_link : download :=
  {| dl_url := py "https://x/files/plugin.zip"; dl_name := py "plugin" |}.

(** * Properties *)

Example sanitize_end_to_end :
  sanitize_filename (py "Cool Wall/paper") = py "Cool_Wall_paper".
Proof. reflexivity. Qed.

Example http_url_path_example :
  Sample.http_url_path (py "https://x/files/cool.tar.gz;v=1?a=b#c") = py "/files/cool.tar.gz".
Proof. reflexivity. Qed.

(** The end-to-end scenario: one plugin named "Cool Wall/paper" with one
    archive.  The run counts one download; the archive and the src directory
    lie under Cool_Wall_paper; three requests were made, with a pause of
    DELAY_BETWEEN_REQUESTS before the second and the third. *)
Example end_to_end :
  let run := main scenario Sample.empty_world in
  run.1 = Ok (Counters 1 0 0) /\
  fs run.2 !! cool_path = Some (File (concat Sample.archive_bytes)) /\
  fs run.2 !! (false, [py "wallpaper-example"; py "Cool_Wall_paper"; py "src"]) = Some Dir /\
  requests run.2 = [listing_url; OCS_API_URL ++ py "/content/data/42"; cool_url] /\
  slept run.2 = 6%Z.
Proof. vm_compute. repeat split; reflexivity. Qed.

(** A library that raises makes the extractor return failure. *)
Example extract_archive_catches :
  extract_archive
    {| lower := ascii_lower; urlparse_path := Sample.http_url_path;
       remote := Sample.always None;
       tar_extractall := Sample.unpack_raises;
       zip_extractall := Sample.unpack_raises |}
    (plugin_file "plugin.tar.gz") plugin_src Sample.empty_world
  = (Ok false, Sample.empty_world).
Proof. reflexivity. Qed.

(** Download links come out in the order of their numbers. *)
Example collect_downloads_in_order :
  collect_downloads
    (Element (py "content") None
       [Sample.leaf (py "downloadlink2") (py "b"); Sample.leaf (py "downloadlink1") (py "a");
        Sample.leaf (py "downloadname1") (py "first");
        Sample.leaf (py "downloadlink3") (py "c")])
  = [Download (py "a") (py "first"); Download (py "b") (py "file2");
     Download (py "c") (py "file3")].
Proof. reflexivity. Qed.

(** ** The sanitizer *)

Section Sanitizer.

Lemma lstrip_Forall (P : N -> Prop) chars s :
  Forall P s -> Forall P (lstrip chars s).
Proof.
  induction 1 as [|c s' Hc Hs IH]; simpl; [constructor|].
  destruct (char_in chars c); [exact IH | by constructor].
Qed.

Lemma strip_Forall (P : N -> Prop) chars s :
  Forall P s -> Forall P (strip chars s).
Proof.
  intros H. unfold strip, rstrip.
  apply Forall_rev, lstrip_Forall, Forall_rev, lstrip_Forall, H.
Qed.

Lemma lstrip_head chars c s :
  char_in chars c = false -> lstrip chars (c :: s) = c :: s.
Proof. intros H. simpl. by rewrite H. Qed.

Lemma lstrip_cases chars s :
  lstrip chars s = [] \/
  exists c s', lstrip chars s = c :: s' /\ char_in chars c = false.
Proof.
  induction s as [|c s IH]; simpl; [by left|].
  destruct (char_in chars c) eqn:E; [exact IH|].
  right. by exists c, s.
Qed.

Lemma lstrip_snoc chars s c :
  char_in chars c = false -> lstrip chars (s ++ [c]) = lstrip chars s ++ [c].
Proof.
  intros H. induction s as [|d s IH]; simpl.
  - by rewrite H.
  - destruct (char_in chars d); [exact IH | reflexivity].
Qed.

Lemma lstrip_idem chars s : lstrip chars (lstrip chars s) = lstrip chars s.
Proof.
  destruct (lstrip_cases chars s) as [-> | (c & s' & -> & H)]; [reflexivity|].
  by apply lstrip_head.
Qed.

(** Stripping what is already stripped changes nothing. *)
Lemma strip_idem chars s : strip chars (strip chars s) = strip chars s.
Proof.
  unfold strip at 1.
  assert (Hl : lstrip chars (strip chars s) = strip chars s).
  { unfold strip, rstrip.
    destruct (lstrip_cases chars s) as [-> | (c & s' & -> & H)]; [reflexivity|].
    simpl rev. rewrite lstrip_snoc by exact H.
    rewrite rev_app_distr. simpl. by rewrite H. }
  rewrite Hl. unfold strip, rstrip.
  by rewrite rev_involutive, lstrip_idem.
Qed.

Lemma re_sub_class_id class repl s :
  Forall (fun c => class c = false) s -> re_sub_class class repl s = s.
Proof.
  induction 1 as [|c s' Hc Hs IH]; simpl; [reflexivity|].
  rewrite Hc. f_equal. exact IH.
Qed.

Lemma re_sub_runs_id class repl s :
  Forall (fun c => class c = false) s -> re_sub_runs class repl false s = s.
Proof.
  induction 1 as [|c s' Hc Hs IH]; simpl; [reflexivity|].
  rewrite Hc. f_equal. exact IH.
Qed.

Lemma re_sub_class_Forall (P : N -> Prop) class repl s :
  P repl -> (forall c, class c = false -> P c) ->
  Forall P (re_sub_class class repl s).
Proof.
  intros Hr Hc. induction s as [|c s IH]; simpl; constructor; [|exact IH].
  destruct (class c) eqn:E; auto.
Qed.

Lemma re_sub_runs_Forall (P : N -> Prop) class repl b s :
  P repl -> Forall P s -> Forall P (re_sub_runs class repl b s).
Proof.
  intros Hr H. revert b. induction H as [|c s' Hc Hs IH]; intros b; simpl.
  - constructor.
  - destruct (class c); [destruct b|]; auto.
Qed.

Lemma re_sub_runs_clean class repl b s :
  class repl = false ->
  Forall (fun c => class c = false) (re_sub_runs class repl b s).
Proof.
  intros Hr. revert b. induction s as [|c s IH]; intros b; simpl.
  - constructor.
  - destruct (class c) eqn:E; [destruct b|]; auto.
Qed.

Lemma sanitize_stripped name :
  Forall safe_char
    (strip (py "._") (re_sub_runs isspace 95%N false (re_sub_class is_forbidden 95%N name))).
Proof.
  apply strip_Forall, Forall_and. split.
  - apply re_sub_runs_Forall; [reflexivity|].
    apply re_sub_class_Forall; [reflexivity | auto].
  - by apply re_sub_runs_clean.
Qed.

Lemma sanitize_safe name : Forall safe_char (sanitize_filename name).
Proof.
  unfold sanitize_filename, or_else.
  pose proof (sanitize_stripped name) as H.
  destruct (strip _ _) as [|c s]; simpl.
  - repeat constructor.
  - exact H.
Qed.

Lemma sanitize_nonempty name : sanitize_filename name <> [].
Proof.
  unfold sanitize_filename, or_else.
  destruct (strip _ _) as [|c s]; simpl; discriminate.
Qed.

(** A clean, stripped, non-empty name is a fixed point. *)
Lemma sanitize_fixed t :
  Forall safe_char t -> strip (py "._") t = t -> t <> [] ->
  sanitize_filename t = t.
Proof.
  intros Hsafe Hstrip Hne. unfold sanitize_filename, or_else.
  apply Forall_and in Hsafe as [Hf Hs].
  rewrite (re_sub_class_id _ _ _ Hf), (re_sub_runs_id _ _ _ Hs), Hstrip.
  by destruct t.
Qed.

End Sanitizer.

(** C5: sanitizing a sanitized name gives it back, for every name; and the
    sanitizer is a function of its argument alone, so equal names have
    equal results. *)
Theorem sanitize_idempotent :
  (forall x : str, sanitize_filename (sanitize_filename x) = sanitize_filename x) /\
  (forall x y : str, x = y -> sanitize_filename x = sanitize_filename y).
Proof.
  split; [|by intros x y ->].
  intros x. unfold sanitize_filename at 2 3. unfold or_else.
  pose proof (sanitize_stripped x) as Hsafe.
  pose proof (strip_idem (py "._")
                (re_sub_runs isspace 95%N false (re_sub_class is_forbidden 95%N x))) as Hidem.
  destruct (strip _ _) as [|c s] eqn:E; simpl.
  - reflexivity.
  - apply sanitize_fixed; [exact Hsafe | exact Hidem | discriminate].
Qed.

Lemma sanitize_idempotent_witness :
  sanitize_filename (sanitize_filename (py "a b")) = sanitize_filename (py "a b") /\
  sanitize_filename (py "a b") = sanitize_filename (py "a b").
Proof.
  split.
  - apply (proj1 sanitize_idempotent).
  - apply (proj2 sanitize_idempotent). reflexivity.
Defined.

(** C6: for every name the sanitizer returns a string that is not empty and
    holds no character of the forbidden class and no white space; the empty
    name and the name of three dots both give "unknown". *)
Theorem sanitize_total_and_clean :
  (forall name : str,
      sanitize_filename name <> [] /\
      Forall (fun c => is_forbidden c = false /\ isspace c = false)
             (sanitize_filename name)) /\
  sanitize_filename [] = py "unknown" /\
  sanitize_filename (py "...") = py "unknown".
Proof.
  split; [|split; reflexivity].
  intros name. split.
  - apply sanitize_nonempty.
  - apply sanitize_safe.
Qed.

(** ** The downloader *)

Section Downloader.

Context (env : environment).

Implicit Types (url : str) (w : world) (attempt : Z) (output_path : path).

(** One attempt, by the answer of the server. *)
Lemma download_attempt_eq url output_path attempt w :
  download_attempt env url output_path attempt w =
  match remote env (length (requests w)) url with
  | None => after_failure attempt (logged url w)
  | Some r =>
      if (status_code r =? 429)%Z then
        (Ok Next, waited (backoff attempt) (logged url w))
      else if (400 <=? status_code r)%Z && (status_code r <? 600)%Z then
        after_failure attempt (logged url w)
      else if body_breaks r then
        after_failure attempt (saved output_path r (logged url w))
      else (Ok (Return true), saved output_path r (logged url w))
  end.
Proof.
  unfold download_attempt, try_except, bind, session_get, after_failure.
  destruct (remote env (length (requests w)) url) as [r|]; simpl.
  - destruct (status_code r =? 429)%Z; [reflexivity|].
    unfold raise_for_status.
    destruct ((400 <=? status_code r)%Z && (status_code r <? 600)%Z); simpl.
    + destruct (attempt <? _)%Z; reflexivity.
    + unfold write_body. simpl.
      destruct (body_breaks r); simpl; [|reflexivity].
      destruct (attempt <? _)%Z; reflexivity.
  - destruct (attempt <? _)%Z; reflexivity.
Qed.

(** A loop of attempts that are all answered 429: each one logs a request
    and waits its turn's delay, and the loop runs to its end. *)
Lemma rate_limited_loop url output_path (attempts : list Z) w :
  (forall n, status_code <$> remote env n url = Some 429%Z) ->
  for_each attempts (download_attempt env url output_path) w =
  (Ok Next,
   World (fs w)
         (slept w + foldr Z.add 0%Z (map backoff attempts))
         (requests w ++ replicate (length attempts) url)).
Proof.
  intros H. revert w. induction attempts as [|a l IH]; intros w.
  - simpl. unfold ret. destruct w; simpl. f_equal. f_equal; [lia|].
    by rewrite app_nil_r.
  - simpl. unfold bind. rewrite download_attempt_eq.
    specialize (H (length (requests w))).
    destruct (remote env _ url) as [r|]; [|discriminate].
    simpl in H. injection H as ->. simpl.
    rewrite IH. simpl. f_equal. f_equal; [lia|].
    by rewrite <- app_assoc.
Qed.

Lemma ensure_dir_keeps (m : gmap (bool * list (list N)) node) q q' :
  is_Some (m !! q') -> is_Some (ensure_dir m q !! q').
Proof.
  intros H. unfold ensure_dir. destruct (m !! q) eqn:E; [exact H|].
  destruct (decide (q = q')) as [->|Hne].
  - rewrite lookup_insert_eq. eauto.
  - by rewrite lookup_insert_ne.
Qed.

Lemma ensure_dirs_keep (l : list (bool * list (list N))) (m : gmap (bool * list (list N)) node) q' :
  is_Some (m !! q') -> is_Some (foldl ensure_dir m l !! q').
Proof.
  revert m. induction l as [|q l IH]; intros m H; simpl; [exact H|].
  apply IH, ensure_dir_keeps, H.
Qed.

Lemma saved_keeps output_path r w q :
  is_Some (fs w !! q) -> is_Some (fs (saved output_path r w) !! q).
Proof.
  intros H. unfold saved, set_fs. simpl.
  destruct (decide (output_path = q)) as [->|Hne].
  - rewrite lookup_insert_eq. eauto.
  - rewrite lookup_insert_ne by exact Hne. by apply ensure_dirs_keep.
Qed.

Lemma saved_lookup output_path r w :
  fs (saved output_path r w) !! output_path = Some (File (concat (body r))).
Proof. unfold saved, set_fs. simpl. apply lookup_insert_eq. Qed.

Lemma after_failure_cases attempt w f w' :
  after_failure attempt w = (f, w') ->
  fs w' = fs w /\ requests w' = requests w /\
  (f = Ok Next \/
   f = Ok (Return false) /\ (Z.of_nat MAX_RETRIES - 1 <= attempt)%Z).
Proof.
  unfold after_failure. destruct (attempt <? _)%Z eqn:E; intros [= <- <-]; simpl.
  - auto.
  - apply Z.ltb_ge in E. auto.
Qed.

(** What a run of the retry loop over the attempts [l] amounts to.  It
    never raises.  With [m] the number of requests it made: if it returned
    success, one of the answers was accepted and its body is at the
    destination; otherwise either every answer was refused and the file
    system is untouched, or the body of some accepted answer broke and the
    chunks that had arrived are at the destination. *)
Lemma attempts_inv url output_path (l : list Z) w res w' :
  for_each l (download_attempt env url output_path) w = (res, w') ->
  exists m : nat,
    m <= length l /\
    requests w' = requests w ++ replicate m url /\
    match res with
    | Raise _ => False
    | Ok (Return true) =>
        exists k r, k < m /\
          remote env (length (requests w) + k) url = Some r /\
          refused (Some r) = false /\ body_breaks r = false /\
          fs w' !! output_path = Some (File (concat (body r)))
    | Ok f =>
        (f = Next -> m = length l) /\
        (f = Return false ->
           exists a, l !! (m - 1) = Some a /\ 1 <= m /\ (Z.of_nat MAX_RETRIES - 1 <= a)%Z) /\
        ((fs w' = fs w /\
          forall k, k < m -> refused (remote env (length (requests w) + k) url) = true)
         \/
         (exists k r, k < m /\
            remote env (length (requests w) + k) url = Some r /\
            refused (Some r) = false /\ body_breaks r = true /\
            fs w' !! output_path = Some (File (concat (body r)))))
    end.
Proof.
  revert w. induction l as [|a l IH]; intros w.
  - simpl. intros [= <- <-]. exists 0. simpl.
    rewrite app_nil_r. repeat split; try done.
    left. split; [done | lia].
  - simpl. unfold bind.
    destruct (download_attempt env url output_path a w) as [r1 w1] eqn:E1.
    rewrite download_attempt_eq in E1.
    (* the first attempt either lets the loop go on, from a world whose
       file system is the old one or holds the broken body, or ends it *)
    assert (Hfirst :
      (r1 = Ok Next \/ r1 = Ok (Return false) /\ (Z.of_nat MAX_RETRIES - 1 <= a)%Z) /\
      requests w1 = requests w ++ [url] /\
      (fs w1 = fs w /\ refused (remote env (length (requests w)) url) = true \/
       exists r, remote env (length (requests w)) url = Some r /\
         refused (Some r) = false /\ body_breaks r = true /\
         fs w1 !! output_path = Some (File (concat (body r))))
      \/
      r1 = Ok (Return true) /\ requests w1 = requests w ++ [url] /\
      exists r, remote env (length (requests w)) url = Some r /\
        refused (Some r) = false /\ body_breaks r = false /\
        fs w1 !! output_path = Some (File (concat (body r)))).
    { destruct (remote env (length (requests w)) url) as [r|] eqn:Er.
      - unfold refused.
        destruct (status_code r =? 429)%Z eqn:E429.
        { injection E1 as <- <-. left. simpl. auto. }
        destruct ((400 <=? status_code r)%Z && (status_code r <? 600)%Z) eqn:Eerr.
        { apply after_failure_cases in E1 as (Hfs & Hrq & Hr).
          left. rewrite Hfs, Hrq. simpl. auto. }
        destruct (body_breaks r) eqn:Eb.
        + apply after_failure_cases in E1 as (Hfs & Hrq & Hr).
          left. rewrite Hfs, Hrq. split; [exact Hr|]. split; [reflexivity|].
          right. exists r. rewrite saved_lookup, E429, Eerr. auto.
        + injection E1 as <- <-. right. split; [reflexivity|].
          split; [reflexivity|]. exists r. rewrite saved_lookup, E429, Eerr. auto.
      - apply after_failure_cases in E1 as (Hfs & Hrq & Hr).
        left. rewrite Hfs, Hrq. simpl. auto. }
    clear E1.
    destruct Hfirst as [(Hr1 & Hrq & Hfs) | (-> & Hrq & r & Hr & Hacc & Hb & Hlook)].
    + destruct Hr1 as [-> | [-> Ha]].
      * (* the loop goes on *)
        intros Hrest. destruct (IH _ Hrest) as (m & Hm & Hrqs & Hres).
        exists (S m). split; [simpl; lia|]. split.
        { rewrite Hrqs, Hrq, <- app_assoc. reflexivity. }
        rewrite Hrq, length_app in Hres. simpl in Hres.
        assert (Hshift : forall k, length (requests w) + 1 + k = length (requests w) + S k)
          by (intros; lia).
        destruct res as [[|[|]]|e]; try done.
        -- destruct Hres as (Hn & Hf & Hd). split; [intros _; simpl; f_equal; auto|].
           split; [discriminate|].
           destruct Hd as [[Hsame Hall] | (k & r & Hk & Hrem & Hacc & Hb & Hlook)].
           ++ destruct Hfs as [[Hfs0 Href] | (r & Hrem & Hacc & Hb & Hlook)].
              ** left. split; [congruence|]. intros [|k] Hk.
                 --- by rewrite Nat.add_0_r.
                 --- rewrite <- Hshift. apply Hall. lia.
              ** right. exists 0, r. rewrite Nat.add_0_r, Hsame. repeat split; auto. lia.
           ++ right. exists (S k), r. rewrite <- Hshift. repeat split; auto. lia.
        -- destruct Hres as (k & r & Hk & Hrem & Hacc & Hb & Hlook).
           exists (S k), r. rewrite <- Hshift. repeat split; auto. lia.
        -- destruct Hres as (Hn & Hf & Hd). split; [discriminate|]. split.
           { intros _. destruct (Hf eq_refl) as (a' & Hla & Hm1 & Ha').
             exists a'. split; [|split; [lia | exact Ha']].
             replace (S m - 1) with (S (m - 1)) by lia. exact Hla. }
           destruct Hd as [[Hsame Hall] | (k & r & Hk & Hrem & Hacc & Hb & Hlook)].
           ++ destruct Hfs as [[Hfs0 Href] | (r & Hrem & Hacc & Hb & Hlook)].
              ** left. split; [congruence|]. intros [|k] Hk.
                 --- by rewrite Nat.add_0_r.
                 --- rewrite <- Hshift. apply Hall. lia.
              ** right. exists 0, r. rewrite Nat.add_0_r, Hsame. repeat split; auto. lia.
           ++ right. exists (S k), r. rewrite <- Hshift. repeat split; auto. lia.
      * (* the last attempt failed *)
        intros [= <- <-]. exists 1. split; [simpl; lia|]. split; [exact Hrq|].
        split; [discriminate|]. split.
        { intros _. exists a. simpl. repeat split; auto. }
        destruct Hfs as [[Hfs0 Href] | (r & Hrem & Hacc & Hb & Hlook)].
        -- left. split; [exact Hfs0|]. intros k Hk.
           replace k with 0 by lia. by rewrite Nat.add_0_r.
        -- right. exists 0, r. rewrite Nat.add_0_r. repeat split; auto.
    + intros [= <- <-]. exists 1. split; [simpl; lia|]. split; [exact Hrq|].
      exists 0, r. rewrite Nat.add_0_r. repeat split; auto.
Qed.

Lemma range_lookup (n i : nat) (a : Z) :
  range n !! i = Some a -> a = Z.of_nat i /\ i < n.
Proof.
  unfold range. rewrite list_lookup_fmap.
  destruct (seq 0 n !! i) as [j|] eqn:E; [|discriminate].
  apply lookup_seq in E as [-> Hi]. simpl. intros [= <-]. auto.
Qed.

(** The download as a whole: it returns, never raises; see [attempts_inv]
    for the two outcomes.  A failure has used up every attempt. *)
Lemma download_file_inv url output_path w res w' :
  download_file env url output_path w = (res, w') ->
  exists (b : bool) (m : nat),
    res = Ok b /\ m <= MAX_RETRIES /\
    requests w' = requests w ++ replicate m url /\
    if b then
      exists k r, k < m /\
        remote env (length (requests w) + k) url = Some r /\
        refused (Some r) = false /\ body_breaks r = false /\
        fs w' !! output_path = Some (File (concat (body r)))
    else
      m = MAX_RETRIES /\
      ((fs w' = fs w /\
        forall k, k < m -> refused (remote env (length (requests w) + k) url) = true)
       \/
       (exists k r, k < m /\
          remote env (length (requests w) + k) url = Some r /\
          refused (Some r) = false /\ body_breaks r = true /\
          fs w' !! output_path = Some (File (concat (body r))))).
Proof.
  unfold download_file, bind.
  destruct (for_each _ _ w) as [r1 w1] eqn:E.
  apply attempts_inv in E as (m & Hm & Hrq & Hres).
  assert (Hlen : length (range MAX_RETRIES) = MAX_RETRIES) by reflexivity.
  rewrite Hlen in Hm.
  destruct r1 as [[|[|]]|e]; try done; unfold ret; intros [= <- <-].
  - destruct Hres as (Hn & _ & Hd). exists false, m.
    assert (m = MAX_RETRIES) by (by rewrite (Hn eq_refl)). split_and!; auto.
  - exists true, m. split_and!; auto.
  - destruct Hres as (_ & Hf & Hd). exists false, m.
    destruct (Hf eq_refl) as (a & Hla & Hm1 & Ha).
    apply range_lookup in Hla as [-> Hlt].
    assert (m = MAX_RETRIES) by lia. split_and!; auto.
Qed.

Lemma download_attempt_keeps url output_path attempt w q :
  is_Some (fs w !! q) ->
  is_Some (fs (download_attempt env url output_path attempt w).2 !! q).
Proof.
  intros H. rewrite download_attempt_eq. unfold after_failure.
  destruct (remote env _ url) as [r|]; repeat case_match; simpl;
    try exact H; by apply saved_keeps.
Qed.

Lemma attempts_keep url output_path (l : list Z) w q :
  is_Some (fs w !! q) ->
  is_Some (fs (for_each l (download_attempt env url output_path) w).2 !! q).
Proof.
  revert w. induction l as [|a l IH]; intros w H; simpl; [exact H|].
  unfold bind.
  pose proof (download_attempt_keeps url output_path a w q H) as H1.
  destruct (download_attempt env url output_path a w) as [[[|b]|e] w1];
    simpl in *; [by apply IH | exact H1 | exact H1].
Qed.

(** The download removes nothing. *)
Lemma download_file_keeps url output_path w q :
  is_Some (fs w !! q) ->
  is_Some (fs (download_file env url output_path w).2 !! q).
Proof.
  intros H. unfold download_file, bind.
  pose proof (attempts_keep url output_path (range MAX_RETRIES) w q H) as H1.
  destruct (for_each _ _ w) as [[[|b]|e] w1]; exact H1.
Qed.

(** Lines 240-244: a link whose destination is there is counted as skipped,
    and the world stays as it is: no request, no waiting, no write. *)
Lemma process_link_present plugin_name plugin_dir c dl filename w :
  is_empty (dl_url dl) = false ->
  target_filename env plugin_name dl = Some filename ->
  is_Some (fs w !! joinpath plugin_dir filename) ->
  process_link env plugin_name plugin_dir c dl w = (Ok (add_skipped c), w).
Proof.
  intros Hurl Ht [x Hx]. unfold process_link.
  rewrite Hurl, Ht. unfold save_link, bind, path_exists. by rewrite Hx.
Qed.

End Downloader.

(** C2 (as amended): a download that returns failure has made MAX_RETRIES
    requests.  If every answer was refused before its body (no response, a
    429 or an error status) the file system is what it was.  If an answer
    was accepted and its body broke, the chunks that had arrived are at the
    destination; nothing removes or marks them, and a later pass over a link
    with that destination counts it as skipped without any request. *)
Theorem failed_download_leaves (env : environment) (url : str) (output_path : path)
    (w w' : world) :
  download_file env url output_path w = (Ok false, w') ->
  requests w' = requests w ++ replicate MAX_RETRIES url /\
  ((fs w' = fs w /\
    forall k, k < MAX_RETRIES ->
      refused (remote env (length (requests w) + k) url) = true)
   \/
   (exists k r, k < MAX_RETRIES /\
      remote env (length (requests w) + k) url = Some r /\
      refused (Some r) = false /\ body_breaks r = true /\
      fs w' !! output_path = Some (File (concat (body r))) /\
      forall plugin_name plugin_dir c dl filename,
        is_empty (dl_url dl) = false ->
        target_filename env plugin_name dl = Some filename ->
        joinpath plugin_dir filename = output_path ->
        process_link env plugin_name plugin_dir c dl w' = (Ok (add_skipped c), w'))).
Proof.
  intros H. apply download_file_inv in H as (b & m & [= <-] & Hm & Hrq & -> & Hd).
  split; [exact Hrq|].
  destruct Hd as [Hsame | (k & r & Hk & Hrem & Hacc & Hb & Hlook)]; [by left|].
  right. exists k, r. repeat split; auto.
  intros name dir c dl fn Hurl Ht Hp.
  apply (process_link_present env name dir c dl fn); auto.
  rewrite Hp, Hlook. eauto.
Qed.

Lemma failed_download_leaves_witness :
  let w' := (download_file dropping cool_url cool_path Sample.empty_world).2 in
  download_file dropping cool_url cool_path Sample.empty_world = (Ok false, w') /\
  requests w' = requests Sample.empty_world ++ replicate MAX_RETRIES cool_url /\
  ((fs w' = fs Sample.empty_world /\
    forall k, k < MAX_RETRIES ->
      refused (remote dropping (length (requests Sample.empty_world) + k) cool_url) = true)
   \/
   (exists k r, k < MAX_RETRIES /\
      remote dropping (length (requests Sample.empty_world) + k) cool_url = Some r /\
      refused (Some r) = false /\ body_breaks r = true /\
      fs w' !! cool_path = Some (File (concat (body r))) /\
      forall plugin_name plugin_dir c dl filename,
        is_empty (dl_url dl) = false ->
        target_filename dropping plugin_name dl = Some filename ->
        joinpath plugin_dir filename = cool_path ->
        process_link dropping plugin_name plugin_dir c dl w' = (Ok (add_skipped c), w'))).
Proof.
  intros w'.
  assert (H : download_file dropping cool_url cool_path Sample.empty_world = (Ok false, w')).
  { subst w'. rewrite (surjective_pairing (download_file _ _ _ _)) at 1.
    f_equal. }
  split; [exact H|].
  exact (failed_download_leaves dropping cool_url cool_path Sample.empty_world w' H).
Defined.

(** C2 (as the specification words it) does not hold: when the connection
    drops in the middle of every body, the download fails and the two bytes
    that had arrived stay at the destination, which was free before. *)
Lemma failed_download_leaves_partial_file : ~ failed_download_leaves_nothing.
Proof.
  intros H.
  specialize (H dropping cool_url cool_path Sample.empty_world eq_refl eq_refl).
  vm_compute in H. discriminate H.
Qed.

(** C1: when every response to the download has status 429, the download
    makes exactly MAX_RETRIES requests and returns failure, and the time it
    has waited by then is RETRY_DELAY times 1+2+...+MAX_RETRIES: 10, 20 and
    30 seconds, 60 in all.  The file system is as it was. *)
Theorem download_rate_limited (env : environment) (url : str) (output_path : path) (w : world) :
  (forall n, status_code <$> remote env n url = Some 429%Z) ->
  exists w',
    download_file env url output_path w = (Ok false, w') /\
    requests w' = requests w ++ replicate MAX_RETRIES url /\
    slept w' = (slept w
                + RETRY_DELAY * foldr Z.add 0 (map (fun k => Z.of_nat k) (seq 1 MAX_RETRIES)))%Z /\
    (slept w' - slept w = 10 + 20 + 30)%Z /\
    fs w' = fs w.
Proof.
  intros H. eexists. split.
  - unfold download_file, bind. rewrite rate_limited_loop by exact H. reflexivity.
  - simpl. repeat split; unfold backoff, RETRY_DELAY; lia.
Qed.

Lemma download_rate_limited_witness :
  exists w',
    download_file (Sample.surroundings (Sample.always (Some Sample.too_many_requests)))
      (py "https://x/files/cool.tar.gz")
      (false, [py "wallpaper-example"; py "cool"; py "cool.tar.gz"])
      Sample.empty_world = (Ok false, w') /\
    requests w' = requests Sample.empty_world
                  ++ replicate MAX_RETRIES (py "https://x/files/cool.tar.gz") /\
    slept w' = (slept Sample.empty_world
                + RETRY_DELAY * foldr Z.add 0 (map (fun k => Z.of_nat k) (seq 1 MAX_RETRIES)))%Z /\
    (slept w' - slept Sample.empty_world = 10 + 20 + 30)%Z /\
    fs w' = fs Sample.empty_world.
Proof.
  apply (download_rate_limited
           (Sample.surroundings (Sample.always (Some Sample.too_many_requests)))).
  intros n. reflexivity.
Defined.

(** ** Prefixes, suffixes and substrings *)

Section Strings.

Implicit Types s t sub : list N.

Lemma startswith_spec s prefix :
  startswith s prefix = true <-> exists t, s = prefix ++ t.
Proof.
  revert s. induction prefix as [|p prefix IH]; intros s; simpl.
  - split; [intros _; by exists s | done].
  - destruct s as [|c s].
    + split; [done | intros [t Ht]; discriminate].
    + rewrite andb_true_iff, N.eqb_eq, IH. split.
      * intros [-> [t ->]]. by exists t.
      * intros [t [= -> ->]]. eauto.
Qed.

Lemma endswith_spec s suffix :
  endswith s suffix = true <-> exists t, s = t ++ suffix.
Proof.
  unfold endswith. rewrite startswith_spec. split.
  - intros [t Ht]. exists (rev t).
    rewrite <- (rev_involutive s), Ht, rev_app_distr, rev_involutive. reflexivity.
  - intros [t ->]. exists (rev t). apply rev_app_distr.
Qed.

Lemma contains_spec s sub :
  contains s sub = true <-> exists a b, s = a ++ sub ++ b.
Proof.
  induction s as [|c s IH].
  - simpl. rewrite orb_false_r, startswith_spec. split.
    + intros [t Ht]. by exists [], t.
    + intros (a & b & H). destruct a; [by exists b | discriminate].
  - cbn [contains]. rewrite orb_true_iff, IH, startswith_spec. split.
    + intros [[t Ht] | (a & b & ->)]; [by exists [], t | by exists (c :: a), b].
    + intros ([|c' a] & b & H).
      * left. by exists b.
      * right. injection H as -> ->. by exists a, b.
Qed.

(** A name that ends in .zip ends in none of the tar suffixes. *)
Lemma zip_is_not_tar s :
  endswith s (py ".zip") = true -> existsb (endswith s) tar_suffixes = false.
Proof.
  intros H. apply endswith_spec in H as [t ->].
  unfold endswith. rewrite rev_app_distr. vm_compute. reflexivity.
Qed.

End Strings.

(** ** The extractor *)

Section Extractor.

Context (env : environment).

Lemma extract_archive_tar archive_path extract_dir w :
  existsb (endswith (path_str archive_path)) tar_suffixes = true ->
  extract_archive env archive_path extract_dir w =
  (Ok (tar_extractall env archive_path extract_dir (fs w)).1,
   set_fs (tar_extractall env archive_path extract_dir (fs w)).2 w).
Proof.
  intros H. unfold extract_archive, bind, try_except, run_extractor. rewrite H.
  destruct (tar_extractall env _ _ _) as [[|] m]; reflexivity.
Qed.

Lemma extract_archive_zip archive_path extract_dir w :
  endswith (path_str archive_path) (py ".zip") = true ->
  extract_archive env archive_path extract_dir w =
  (Ok (zip_extractall env archive_path extract_dir (fs w)).1,
   set_fs (zip_extractall env archive_path extract_dir (fs w)).2 w).
Proof.
  intros H. unfold extract_archive, bind, try_except, run_extractor.
  rewrite (zip_is_not_tar _ H), H.
  destruct (zip_extractall env _ _ _) as [[|] m]; reflexivity.
Qed.

Lemma extract_archive_other archive_path extract_dir w :
  existsb (endswith (path_str archive_path)) tar_suffixes = false ->
  endswith (path_str archive_path) (py ".zip") = false ->
  extract_archive env archive_path extract_dir w = (Ok false, w).
Proof.
  intros Ht Hz. unfold extract_archive, bind, try_except. by rewrite Ht, Hz.
Qed.

Lemma extract_archive_returns archive_path extract_dir w :
  exists b w', extract_archive env archive_path extract_dir w = (Ok b, w').
Proof.
  destruct (existsb (endswith (path_str archive_path)) tar_suffixes) eqn:Ht.
  - rewrite extract_archive_tar by exact Ht. eauto.
  - destruct (endswith (path_str archive_path) (py ".zip")) eqn:Hz.
    + rewrite extract_archive_zip by exact Hz. eauto.
    + rewrite extract_archive_other by assumption. eauto.
Qed.

End Extractor.

(** C7: the extractor goes by the end of the name.  A path that ends in
    .tar.gz, .tgz, .tar.xz or .tar.bz2 is given to the tar library, one that
    ends in .zip to the zip library, and the extractor returns whether the
    library completed; whatever the library raises is caught and becomes
    failure.  With any other ending it returns failure and touches nothing.
    For every path and destination it returns; it never raises. *)
Theorem extract_archive_dispatch (env : environment) (archive_path extract_dir : path)
    (w : world) :
  (exists b w', extract_archive env archive_path extract_dir w = (Ok b, w')) /\
  (forall suffix t,
      suffix ∈ tar_suffixes -> path_str archive_path = t ++ suffix ->
      extract_archive env archive_path extract_dir w =
      (Ok (tar_extractall env archive_path extract_dir (fs w)).1,
       set_fs (tar_extractall env archive_path extract_dir (fs w)).2 w)) /\
  (forall t,
      path_str archive_path = t ++ py ".zip" ->
      extract_archive env archive_path extract_dir w =
      (Ok (zip_extractall env archive_path extract_dir (fs w)).1,
       set_fs (zip_extractall env archive_path extract_dir (fs w)).2 w)) /\
  ((forall suffix t,
       suffix ∈ tar_suffixes ++ [py ".zip"] -> path_str archive_path <> t ++ suffix) ->
   extract_archive env archive_path extract_dir w = (Ok false, w)).
Proof.
  split; [apply extract_archive_returns|]. split; [|split].
  - intros suffix t Hin Hs. apply extract_archive_tar.
    apply existsb_exists. exists suffix. split.
    + by apply list_elem_of_In.
    + apply endswith_spec. eauto.
  - intros t Hs. apply extract_archive_zip, endswith_spec. eauto.
  - intros Hno. apply extract_archive_other.
    + apply not_true_is_false. intros H.
      apply existsb_exists in H as (suffix & Hin & Hs).
      apply endswith_spec in Hs as [t Hs].
      apply (Hno suffix t); [|exact Hs].
      apply elem_of_app. left. by apply list_elem_of_In.
    + apply not_true_is_false. intros H.
      apply endswith_spec in H as [t Hs].
      apply (Hno (py ".zip") t); [|exact Hs].
      apply elem_of_app. right. apply list_elem_of_singleton. reflexivity.
Qed.

Lemma extract_archive_dispatch_witness :
  let env := Sample.surroundings (Sample.always None) in
  extract_archive env (plugin_file "plugin.tar.gz") plugin_src Sample.empty_world =
    (Ok true, set_fs (ensure_dir ∅ plugin_src) Sample.empty_world) /\
  extract_archive env (plugin_file "plugin.zip") plugin_src Sample.empty_world =
    (Ok true, set_fs (ensure_dir ∅ plugin_src) Sample.empty_world) /\
  extract_archive env (plugin_file "plugin.exe") plugin_src Sample.empty_world =
    (Ok false, Sample.empty_world).
Proof.
  intros env. split; [|split].
  - apply (proj1 (proj2 (extract_archive_dispatch
                           env (plugin_file "plugin.tar.gz") plugin_src Sample.empty_world))
             (py ".tar.gz") (py "wallpaper-example/plugin/plugin")).
    + vm_compute. apply list_elem_of_here.
    + reflexivity.
  - apply (proj1 (proj2 (proj2 (extract_archive_dispatch
                           env (plugin_file "plugin.zip") plugin_src Sample.empty_world)))
             (py "wallpaper-example/plugin/plugin")).
    reflexivity.
  - apply (proj2 (proj2 (proj2 (extract_archive_dispatch
                           env (plugin_file "plugin.exe") plugin_src Sample.empty_world)))).
    intros suffix t Hin Hs.
    assert (He : endswith (path_str (plugin_file "plugin.exe")) suffix = true)
      by (apply endswith_spec; eauto).
    apply list_elem_of_In in Hin. simpl in Hin.
    destruct Hin as [<-|[<-|[<-|[<-|[<-|[]]]]]]; discriminate He.
Defined.

(** ** The links of a plugin *)

Section Links.

Context (env : environment).

Implicit Types (c : counters) (dl : download) (w : world).

Lemma is_source_file_spec filename :
  is_source_file env filename = true <->
  exists ext a b, ext ∈ source_extensions /\ lower env filename = a ++ ext ++ b.
Proof.
  unfold is_source_file. rewrite existsb_exists. split.
  - intros (ext & Hin & Hc). apply contains_spec in Hc as (a & b & Hc).
    exists ext, a, b. split; [by apply list_elem_of_In | exact Hc].
  - intros (ext & a & b & Hin & Hc). exists ext. split.
    + by apply list_elem_of_In.
    + apply contains_spec. eauto.
Qed.

(** Lines 235-236: a link that is passed over changes nothing. *)
Lemma process_link_passed_over plugin_name plugin_dir c dl w :
  target_filename env plugin_name dl = None ->
  process_link env plugin_name plugin_dir c dl w = (Ok c, w).
Proof.
  intros H. unfold process_link. rewrite H. by destruct (is_empty _).
Qed.

Lemma process_link_saved plugin_name plugin_dir c dl filename w :
  is_empty (dl_url dl) = false ->
  target_filename env plugin_name dl = Some filename ->
  process_link env plugin_name plugin_dir c dl w =
  save_link env plugin_dir c (dl_url dl) filename w.
Proof. intros Hurl H. unfold process_link. by rewrite Hurl, H. Qed.

(** Lines 238-256: saving a link returns, and moves exactly one counter. *)
Lemma save_link_counts plugin_dir c url filename w :
  exists c' w',
    save_link env plugin_dir c url filename w = (Ok c', w') /\
    (c' = add_downloaded c \/ c' = add_skipped c \/ c' = add_failed c).
Proof.
  unfold save_link, bind, path_exists, sleep.
  destruct (fs w !! joinpath plugin_dir filename); [eauto 10|].
  destruct (download_file env url _ _) as [res w1] eqn:E.
  apply download_file_inv in E as (b & m & -> & _).
  destruct b; [|eauto 10].
  destruct (fs w1 !! joinpath plugin_dir (py "src")); simpl; [eauto 10|].
  destruct (extract_archive_returns env (joinpath plugin_dir filename)
              (joinpath plugin_dir (py "src")) w1) as (b & w2 & ->).
  eauto 10.
Qed.

End Links.







(** C10: the source-archive test of the orchestrator holds exactly when one
    of .tar.gz, .tar.xz, .tgz, .zip, .tar.bz2 occurs somewhere in the
    lowercased name, at its end or not.  So the link to notes.zip.txt is
    kept under that name and downloaded; and the extractor, which goes by
    the end of the name, returns failure for it without calling a library,
    so that no src directory appears. *)
Theorem source_test_is_substring_test :
  (forall (env : environment) (filename : str),
      is_source_file env filename = true <->
      exists ext a b, ext ∈ source_extensions /\ lower env filename = a ++ ext ++ b) /\
  (let run := process_link serving (py "plugin") (plugin_dir_of "plugin")
                (Counters 0 0 0) notes_link Sample.empty_world in
   target_filename serving (py "plugin") notes_link = Some (py "notes.zip.txt") /\
   run.1 = Ok (Counters 1 0 0) /\
   requests run.2 = [py "https://x/files/notes.zip.txt"] /\
   fs run.2 !! plugin_file "notes.zip.txt" = Some (File (concat Sample.archive_bytes)) /\
   fs run.2 !! plugin_src = None /\
   forall (env : environment) (extract_dir : path) (w : world),
     extract_archive env (plugin_file "notes.zip.txt") extract_dir w = (Ok false, w)).
Proof.
  split; [exact is_source_file_spec|].
  split; [reflexivity|]. split; [reflexivity|]. split; [reflexivity|].
  split; [reflexivity|]. split; [reflexivity|].
  intros env extract_dir w. by apply extract_archive_other.
Qed.

(** ** The detail fetcher *)

(** C9 (as amended): the id of the details is the text of the id child of
    the content element in the response to the lookup, empty when there is
    no such child; it is the id that was looked up whenever the server
    answers with that id.  The script does not compare the two.  The links
    are those of the same content element. *)
Theorem detail_id_is_response_id (env : environment) (content_id : str)
    (w : world) (d : details) (w' : world) :
  get_content_details env content_id w = (Ok (Some d), w') ->
  exists r root content,
    remote env (length (requests w)) (OCS_API_URL ++ py "/content/data/" ++ content_id)
      = Some r /\
    document r = Some root /\
    find_below (py "content") root = Some content /\
    det_id d = findtext (py "id") [] content /\
    (findtext (py "id") [] content = content_id -> det_id d = content_id) /\
    det_downloads d = collect_downloads content /\
    w' = logged (OCS_API_URL ++ py "/content/data/" ++ content_id) w.
Proof.
  unfold get_content_details, bind, session_get, raise_for_status, fromstring.
  destruct (remote env _ _) as [r|]; [|discriminate].
  destruct ((400 <=? status_code r)%Z && (status_code r <? 600)%Z); [discriminate|].
  simpl. destruct (document r) as [root|] eqn:Edoc; [|discriminate].
  simpl. destruct (find_below (py "content") root) as [content|] eqn:Ec; [|discriminate].
  intros [= <- <-]. exists r, root, content. simpl. split_and!; auto.
Qed.

Lemma detail_id_is_response_id_witness :
  get_content_details scenario (py "42") Sample.empty_world =
    (Ok (Some scenario_found), logged (OCS_API_URL ++ py "/content/data/42") Sample.empty_world) /\
  det_id scenario_found = py "42".
Proof.
  assert (H : get_content_details scenario (py "42") Sample.empty_world =
              (Ok (Some scenario_found),
               logged (OCS_API_URL ++ py "/content/data/42") Sample.empty_world))
    by reflexivity.
  split; [exact H|].
  destruct (detail_id_is_response_id scenario (py "42") Sample.empty_world
              scenario_found _ H) as (r & root & content & Hr & Hdoc & Hfind & Hid & Hecho & _).
  apply Hecho.
  vm_compute in Hr. injection Hr as <-.
  vm_compute in Hdoc. injection Hdoc as <-.
  vm_compute in Hfind. injection Hfind as <-.
  reflexivity.
Defined.

(** C9 (as the specification words it) does not hold: asked for plugin 42,
    a server that answers with the description of plugin 7 makes the
    fetcher return details whose id is 7. *)
Lemma detail_id_follows_server : ~ detail_id_is_lookup_id.
Proof.
  intros H.
  specialize (H mislabelling (py "42") Sample.empty_world).
  vm_compute in H.
  specialize (H _ _ eq_refl). discriminate H.
Qed.

(** ** Running the script again *)

Section TwoRuns.

Context (env : environment).
Hypothesis Hserver : stateless (remote env).
Hypothesis Htar : keeps_files (tar_extractall env).
Hypothesis Hzip : keeps_files (zip_extractall env).

Implicit Types (c : counters) (dl : download) (w : world).

Lemma within_refl (m : gmap (bool * list (list N)) node) : within m m.
Proof. by intros q. Qed.

Lemma within_trans (m1 m2 m3 : gmap (bool * list (list N)) node) :
  within m1 m2 -> within m2 m3 -> within m1 m3.
Proof. intros H12 H23 q H. by apply H23, H12. Qed.

Lemma second_pass_trans c1 ca c1' c2 cb c2' :
  second_pass c1 ca c2 cb -> second_pass ca c1' cb c2' -> second_pass c1 c1' c2 c2'.
Proof. unfold second_pass. intros (?&?&?) (?&?&?). split_and!; lia. Qed.

Lemma extract_archive_keeps archive_path extract_dir w :
  within (fs w) (fs (extract_archive env archive_path extract_dir w).2).
Proof using Htar Hzip.
  intros q H.
  destruct (existsb (endswith (path_str archive_path)) tar_suffixes) eqn:Ht.
  - rewrite extract_archive_tar by exact Ht. simpl. by apply Htar.
  - destruct (endswith (path_str archive_path) (py ".zip")) eqn:Hz.
    + rewrite extract_archive_zip by exact Hz. simpl. by apply Hzip.
    + by rewrite extract_archive_other.
Qed.

(** Lines 251-254: unpacking returns and removes nothing. *)
Lemma unpack_keeps output_path extract_dir c w :
  exists w',
    (unpacked <~ path_exists extract_dir ;;
     (if negb unpacked
      then extract_archive env output_path extract_dir ;;; ret tt
      else ret tt) ;;;
     ret c) w = (Ok c, w') /\
    within (fs w) (fs w').
Proof using Htar Hzip.
  unfold bind, path_exists.
  destruct (fs w !! extract_dir); simpl.
  - exists w. split; [reflexivity | apply within_refl].
  - pose proof (extract_archive_keeps output_path extract_dir w) as Hx.
    destruct (extract_archive_returns env output_path extract_dir w) as (b & w' & Heq).
    rewrite Heq in Hx |- *. exists w'. split; [reflexivity | exact Hx].
Qed.

(** The three ways of lines 238-256.  A failed download either left
    something at the destination or was refused by the server. *)
Lemma save_link_cases plugin_dir c url filename w res w' :
  save_link env plugin_dir c url filename w = (res, w') ->
  within (fs w) (fs w') /\
  (is_Some (fs w !! joinpath plugin_dir filename) /\
   res = Ok (add_skipped c) /\ w' = w
   \/
   fs w !! joinpath plugin_dir filename = None /\
   res = Ok (add_downloaded c) /\ is_Some (fs w' !! joinpath plugin_dir filename)
   \/
   fs w !! joinpath plugin_dir filename = None /\
   res = Ok (add_failed c) /\
   (is_Some (fs w' !! joinpath plugin_dir filename) \/
    fs w' = fs w /\ refused (remote env 0 url) = true)).
Proof using Hserver Htar Hzip.
  unfold save_link. unfold bind at 1. unfold path_exists at 1.
  destruct (fs w !! joinpath plugin_dir filename) as [x|] eqn:Ep.
  { intros [= <- <-]. split; [apply within_refl|]. left. eauto. }
  unfold bind at 1. unfold sleep. unfold bind at 1.
  set (w0 := World (fs w) (slept w + DELAY_BETWEEN_REQUESTS) (requests w)).
  pose proof (download_file_keeps env url (joinpath plugin_dir filename) w0) as Hkeep.
  destruct (download_file env url _ w0) as [r1 w1] eqn:E.
  apply download_file_inv in E as (b & m & -> & Hm & Hrq & Hb).
  simpl in Hkeep. destruct b.
  - destruct Hb as (k & r & _ & _ & _ & _ & Hlook).
    destruct (unpack_keeps (joinpath plugin_dir filename)
                (joinpath plugin_dir (py "src")) (add_downloaded c) w1) as (w2 & -> & Hw2).
    intros [= <- <-]. split.
    + intros q Hq. by apply Hw2, Hkeep.
    + right. left. split_and!; [done | done | apply Hw2; rewrite Hlook; eauto].
  - intros [= <- <-]. split; [exact Hkeep|].
    right. right. split_and!; auto.
    destruct Hb as (-> & [[Hsame Hall] | (k & r & _ & _ & _ & _ & Hlook)]).
    + right. split; [exact Hsame|].
      rewrite (Hserver 0 (length (requests w0) + 0)). apply Hall. unfold MAX_RETRIES. lia.
    + left. rewrite Hlook. eauto.
Qed.

(** A link the server refuses fails again, and leaves the disk alone. *)
Lemma save_link_refused plugin_dir c url filename w :
  fs w !! joinpath plugin_dir filename = None ->
  refused (remote env 0 url) = true ->
  exists w', save_link env plugin_dir c url filename w = (Ok (add_failed c), w') /\
             fs w' = fs w.
Proof using Hserver.
  intros Ep Href. unfold save_link. unfold bind at 1. unfold path_exists at 1.
  rewrite Ep. unfold bind at 1. unfold sleep. unfold bind at 1.
  set (w0 := World (fs w) (slept w + DELAY_BETWEEN_REQUESTS) (requests w)).
  destruct (download_file env url _ w0) as [r1 w1] eqn:E.
  apply download_file_inv in E as (b & m & -> & Hm & Hrq & Hb).
  assert (Hno : forall k r, remote env (length (requests w0) + k) url = Some r ->
                            refused (Some r) = false -> False).
  { intros k r Hr Hacc. rewrite (Hserver _ 0) in Hr. rewrite Hr in Href. congruence. }
  destruct b.
  - destruct Hb as (k & r & _ & Hr & Hacc & _). destruct (Hno k r Hr Hacc).
  - destruct Hb as (_ & [[Hsame _] | (k & r & _ & Hr & Hacc & _)]).
    + exists w1. split; [reflexivity | exact Hsame].
    + destruct (Hno k r Hr Hacc).
Qed.

Lemma add_skipped_second_pass c1 c1' c2 :
  c1' = add_downloaded c1 \/ c1' = add_skipped c1 \/ c1' = add_failed c1 ->
  second_pass c1 c1' c2 (add_skipped c2).
Proof.
  unfold second_pass, total. intros [-> | [-> | ->]]; simpl; split_and!; lia.
Qed.

(** One link, the second time.  The first pass went from [w1] to [w1'],
    and the second pass starts from a disk that holds at least what [w1']
    holds. *)
Lemma process_link_again plugin_name plugin_dir dl c1 w1 c1' w1' c2 w2 :
  process_link env plugin_name plugin_dir c1 dl w1 = (Ok c1', w1') ->
  within (fs w1') (fs w2) ->
  exists c2' w2',
    process_link env plugin_name plugin_dir c2 dl w2 = (Ok c2', w2') /\
    within (fs w2) (fs w2') /\
    second_pass c1 c1' c2 c2'.
Proof using Hserver Htar Hzip.
  unfold process_link.
  destruct (is_empty (dl_url dl)).
  { intros [= <- <-] _. exists c2, w2. split_and!; [done | apply within_refl |].
    unfold second_pass. split_and!; lia. }
  destruct (target_filename env plugin_name dl) as [filename|].
  2:{ intros [= <- <-] _. exists c2, w2. split_and!; [done | apply within_refl |].
      unfold second_pass. split_and!; lia. }
  intros H1 Hin. apply save_link_cases in H1 as [Hgrow H1].
  (* the destination is there the second time: skipped *)
  assert (Hpresent :
    is_Some (fs w1' !! joinpath plugin_dir filename) ->
    c1' = add_downloaded c1 \/ c1' = add_skipped c1 \/ c1' = add_failed c1 ->
    exists c2' w2',
      save_link env plugin_dir c2 (dl_url dl) filename w2 = (Ok c2', w2') /\
      within (fs w2) (fs w2') /\ second_pass c1 c1' c2 c2').
  { intros Hp Hc. apply Hin in Hp as [x Hx].
    exists (add_skipped c2), w2. split_and!.
    - unfold save_link, bind, path_exists. by rewrite Hx.
    - apply within_refl.
    - by apply add_skipped_second_pass. }
  destruct H1 as [(Hp & [= ->] & ->) | [(Hp & [= ->] & Hp') | (Hp & [= ->] & Hf)]].
  - apply Hpresent; auto.
  - apply Hpresent; auto.
  - destruct Hf as [Hp' | [Hsame Href]]; [apply Hpresent; auto|].
    destruct (fs w2 !! joinpath plugin_dir filename) as [x|] eqn:E2.
    + exists (add_skipped c2), w2. split_and!.
      * unfold save_link, bind, path_exists. by rewrite E2.
      * apply within_refl.
      * apply add_skipped_second_pass. auto.
    + destruct (save_link_refused plugin_dir c2 (dl_url dl) filename w2 E2 Href)
        as (w2' & Hrun & Hfs).
      exists (add_failed c2), w2'. split_and!; [exact Hrun | by rewrite Hfs; apply within_refl |].
      unfold second_pass, total. simpl. split_and!; lia.
Qed.

Lemma process_link_keeps plugin_name plugin_dir c dl w :
  within (fs w) (fs (process_link env plugin_name plugin_dir c dl w).2).
Proof using Hserver Htar Hzip.
  unfold process_link.
  destruct (is_empty (dl_url dl)); [apply within_refl|].
  destruct (target_filename env plugin_name dl) as [filename|]; [|apply within_refl].
  destruct (save_link env plugin_dir c (dl_url dl) filename w) as [res w'] eqn:E.
  by apply save_link_cases in E as [H _].
Qed.

(** Loops whose body removes nothing remove nothing. *)
Lemma for_acc_keeps {A} (step : counters -> A -> M counters) (l : list A) c w :
  (forall c a w, within (fs w) (fs (step c a w).2)) ->
  within (fs w) (fs (for_acc l step c w).2).
Proof.
  intros Hstep. revert c w. induction l as [|a l IH]; intros c w; simpl.
  - apply within_refl.
  - unfold bind. pose proof (Hstep c a w) as H1.
    destruct (step c a w) as [[ca|e] wa]; simpl in *; [|exact H1].
    eapply within_trans; [exact H1 | apply IH].
Qed.

(** Running a loop a second time, given what its body does the second
    time. *)
Lemma for_acc_again {A} (step : counters -> A -> M counters) (l : list A) :
  (forall c a w, within (fs w) (fs (step c a w).2)) ->
  (forall a c1 w1 c1' w1' c2 w2,
      step c1 a w1 = (Ok c1', w1') -> within (fs w1') (fs w2) ->
      exists c2' w2',
        step c2 a w2 = (Ok c2', w2') /\ within (fs w2) (fs w2') /\
        second_pass c1 c1' c2 c2') ->
  forall c1 w1 c1' w1' c2 w2,
    for_acc l step c1 w1 = (Ok c1', w1') -> within (fs w1') (fs w2) ->
    exists c2' w2',
      for_acc l step c2 w2 = (Ok c2', w2') /\ within (fs w2) (fs w2') /\
      second_pass c1 c1' c2 c2'.
Proof.
  intros Hkeep Hstep. induction l as [|a l IH]; intros c1 w1 c1' w1' c2 w2; simpl.
  - intros [= <- <-] _. exists c2, w2. split_and!; [done | apply within_refl |].
    unfold second_pass. split_and!; lia.
  - unfold bind. destruct (step c1 a w1) as [[ca|e] wa] eqn:E1; [|discriminate].
    intros Hrest Hin.
    pose proof (for_acc_keeps step l ca wa Hkeep) as Hgrow. rewrite Hrest in Hgrow.
    destruct (Hstep a c1 w1 ca wa c2 w2 E1) as (cb & wb & -> & Hwb & Hpass1).
    { eapply within_trans; [exact Hgrow | exact Hin]. }
    destruct (IH ca wa c1' w1' cb wb Hrest) as (c2' & w2' & -> & Hw2' & Hpass2).
    { eapply within_trans; [exact Hin | exact Hwb]. }
    exists c2', w2'. split_and!; [done | by eapply within_trans |].
    by eapply second_pass_trans.
Qed.

(** The detail fetcher writes nothing, and a stateless server gives it the
    same answer whenever it asks. *)
Lemma get_content_details_again content_id w w2 :
  (get_content_details env content_id w2).1 = (get_content_details env content_id w).1 /\
  fs (get_content_details env content_id w).2 = fs w.
Proof using Hserver.
  unfold get_content_details, bind, session_get, raise_for_status, fromstring.
  rewrite (Hserver (length (requests w2)) (length (requests w))).
  destruct (remote env _ _) as [r|]; [|done].
  destruct ((400 <=? status_code r)%Z && (status_code r <? 600)%Z); [done|].
  simpl. destruct (document r) as [root|]; [|done].
  simpl. by destruct (find_below (py "content") root).
Qed.

Lemma get_all_content_items_again w w2 :
  (get_all_content_items env w2).1 = (get_all_content_items env w).1 /\
  fs (get_all_content_items env w).2 = fs w.
Proof using Hserver.
  unfold get_all_content_items, bind, session_get, raise_for_status, fromstring.
  rewrite (Hserver (length (requests w2)) (length (requests w))).
  destruct (remote env _ _) as [r|]; [|done].
  destruct ((400 <=? status_code r)%Z && (status_code r <? 600)%Z); [done|].
  simpl. destruct (document r) as [root|]; [|done].
  simpl. destruct (find_below (py "status") root) as [status|]; [|done].
  by destruct (negb _).
Qed.

Lemma process_item_keeps c it w :
  within (fs w) (fs (process_item env c it w).2).
Proof using Hserver Htar Hzip.
  unfold process_item, bind, sleep.
  set (w0 := World (fs w) (slept w + DELAY_BETWEEN_REQUESTS) (requests w)).
  destruct (get_content_details_again (item_id it) w0 w0) as [_ Hfs].
  destruct (get_content_details env (item_id it) w0) as [[[d|]|e] wa]; simpl in Hfs.
  - destruct (det_downloads d) as [|dl l] eqn:El.
    + simpl. rewrite Hfs. apply within_refl.
    + rewrite <- El. rewrite <- Hfs.
      apply for_acc_keeps. intros. apply process_link_keeps.
  - simpl. rewrite Hfs. apply within_refl.
  - simpl. rewrite Hfs. apply within_refl.
Qed.

(** One plugin, the second time. *)
Lemma process_item_again it c1 w1 c1' w1' c2 w2 :
  process_item env c1 it w1 = (Ok c1', w1') ->
  within (fs w1') (fs w2) ->
  exists c2' w2',
    process_item env c2 it w2 = (Ok c2', w2') /\
    within (fs w2) (fs w2') /\
    second_pass c1 c1' c2 c2'.
Proof using Hserver Htar Hzip.
  unfold process_item, bind, sleep.
  set (wa := World (fs w1) (slept w1 + DELAY_BETWEEN_REQUESTS) (requests w1)).
  set (wb := World (fs w2) (slept w2 + DELAY_BETWEEN_REQUESTS) (requests w2)).
  destruct (get_content_details_again (item_id it) wa wb) as [Hsame _].
  destruct (get_content_details_again (item_id it) wb wb) as [_ Hfsb].
  destruct (get_content_details env (item_id it) wa) as [found wa'].
  destruct (get_content_details env (item_id it) wb) as [found' wb'].
  simpl in Hsame, Hfsb. subst found'.
  assert (Hfailed : within (fs wb) (fs wb') /\
                    second_pass c1 (add_failed c1) c2 (add_failed c2)).
  { split; [rewrite Hfsb; apply within_refl|].
    unfold second_pass, total. simpl. split_and!; lia. }
  destruct found as [[d|]|e]; [| |discriminate].
  - destruct (det_downloads d) as [|dl l] eqn:El.
    + intros [= <- <-] _. exists (add_failed c2), wb'. by split.
    + rewrite <- El. intros H1 Hin.
      destruct (for_acc_again
                  (process_link env (sanitize_filename (item_name it))
                     (joinpath OUTPUT_DIR (sanitize_filename (item_name it))))
                  (det_downloads d))
        with (c1 := c1) (w1 := wa') (c1' := c1') (w1' := w1') (c2 := c2) (w2 := wb')
        as (c2' & w2' & Hrun & Hw2' & Hpass).
      * intros. apply process_link_keeps.
      * intros. by eapply process_link_again.
      * exact H1.
      * by rewrite Hfsb.
      * exists c2', w2'. split_and!; [exact Hrun | by rewrite <- Hfsb | exact Hpass].
  - intros [= <- <-] _. exists (add_failed c2), wb'. by split.
Qed.

(** The whole script, the second time: from a disk that holds what the
    first run left, it returns, downloads nothing, skips at least what the
    first run downloaded or skipped, and counts as many outcomes. *)
Lemma main_again w1 c1 w1' w2 :
  main env w1 = (Ok c1, w1') ->
  within (fs w1') (fs w2) ->
  exists c2 w2',
    main env w2 = (Ok c2, w2') /\
    downloaded_count c2 = 0%Z /\
    (skipped_count c2 >= downloaded_count c1 + skipped_count c1)%Z /\
    total c2 = total c1.
Proof using Hserver Htar Hzip.
  unfold main. unfold bind at 1 3. unfold mkdir_parents.
  set (wa := set_fs (foldl ensure_dir (fs w1) (ancestry OUTPUT_DIR)) w1).
  set (wb := set_fs (foldl ensure_dir (fs w2) (ancestry OUTPUT_DIR)) w2).
  unfold bind.
  destruct (get_all_content_items_again wa wb) as [Hsame _].
  destruct (get_all_content_items_again wb wb) as [_ Hfsb].
  destruct (get_all_content_items env wa) as [items wa'].
  destruct (get_all_content_items env wb) as [items' wb'].
  simpl in Hsame, Hfsb. subst items'.
  destruct items as [items|e]; [|discriminate].
  intros H1 Hin.
  destruct (for_acc_again (process_item env) items)
    with (c1 := Counters 0 0 0) (w1 := wa') (c1' := c1) (w1' := w1')
         (c2 := Counters 0 0 0) (w2 := wb')
    as (c2 & w2' & Hrun & _ & Hpass).
  - intros. apply process_item_keeps.
  - intros. by eapply process_item_again.
  - exact H1.
  - rewrite Hfsb. intros q Hq. apply ensure_dir_keeps, Hin, Hq.
  - exists c2, w2'. split; [exact Hrun|].
    unfold second_pass, total in *. simpl in Hpass. split_and!; lia.
Qed.

End TwoRuns.

Lemma run_result {A} (m : M A) (w : world) (r : result A) :
  (m w).1 = r -> m w = (r, (m w).2).
Proof. intros <-. apply surjective_pairing. Qed.

Lemma scenario_server_stateless : stateless Sample.scenario_server.
Proof. intros n m url. reflexivity. Qed.

Lemma twice_server_stateless : stateless twice_server.
Proof. intros n m url. reflexivity. Qed.

Lemma unpack_nothing_keeps_files : keeps_files Sample.unpack_nothing.
Proof. intros archive_path extract_dir m q H. by apply ensure_dir_keeps. Qed.




(** * Further properties *)

(** ** The detail fetcher and the listing fetcher *)

Section Fetchers.

Context (env : environment).

Implicit Types (w : world) (content root : element).

(** The detail fetcher, by the answer of the server. *)
Lemma get_content_details_eq content_id w :
  get_content_details env content_id w =
  (match remote env (length (requests w)) (details_url content_id) with
   | None => Raise ConnectionError
   | Some r =>
       if is_error_status r then Raise HTTPError
       else match document r with
            | None => Raise ParseError
            | Some root =>
                match find_below (py "content") root with
                | None => Ok None
                | Some content =>
                    Ok (Some {| det_id := findtext (py "id") [] content;
                                det_name := findtext (py "name") [] content;
                                det_version := findtext (py "version") [] content;
                                det_personid := findtext (py "personid") [] content;
                                det_description := findtext (py "description") [] content;
                                det_downloads := collect_downloads content |})
                end
            end
   end,
   logged (details_url content_id) w).
Proof.
  unfold get_content_details, bind, session_get, raise_for_status, fromstring,
    details_url, is_error_status.
  destruct (remote env _ _) as [r|]; [|reflexivity].
  destruct ((400 <=? status_code r)%Z && (status_code r <? 600)%Z); [reflexivity|].
  simpl. destruct (document r) as [root|]; [|reflexivity].
  simpl. by destruct (find_below (py "content") root).
Qed.

(** The listing fetcher, by the answer of the server. *)
Lemma get_all_content_items_eq w :
  get_all_content_items env w =
  (match remote env (length (requests w)) listing_url with
   | None => Raise ConnectionError
   | Some r =>
       if is_error_status r then Raise HTTPError
       else match document r with
            | None => Raise ParseError
            | Some root =>
                match find_below (py "status") root with
                | Some status =>
                    if bool_decide (etext status = Some (py "ok"))
                    then Ok (map item_of (findall_below (py "content") root))
                    else Raise (ApiError (etext status))
                | None => Ok (map item_of (findall_below (py "content") root))
                end
            end
   end,
   logged listing_url w).
Proof.
  unfold get_all_content_items, bind, session_get, raise_for_status, fromstring,
    is_error_status.
  destruct (remote env _ _) as [r|]; [|reflexivity].
  destruct ((400 <=? status_code r)%Z && (status_code r <? 600)%Z); [reflexivity|].
  simpl. destruct (document r) as [root|]; [|reflexivity].
  simpl. destruct (find_below (py "status") root) as [status|]; [|reflexivity].
  by destruct (bool_decide _).
Qed.

Lemma flat_map_at_most_one {A B} (f : A -> list B) (l : list A) :
  (forall a, length (f a) <= 1) -> length (flat_map f l) <= length l.
Proof.
  intros H. induction l as [|a l IH]; simpl; [lia|].
  rewrite length_app. specialize (H a). lia.
Qed.

Lemma collect_downloads_wellformed content :
  length (collect_downloads content) <= 9 /\
  Forall wellformed_link (collect_downloads content).
Proof.
  unfold collect_downloads. split.
  - change 9 with (length (seq 1 9)). apply flat_map_at_most_one.
    intros i. destruct (is_empty _); simpl; lia.
  - apply Forall_flat_map, Forall_forall. intros i _.
    destruct (is_empty (findtext (py "downloadlink" ++ digit i) [] content)) eqn:E.
    + constructor.
    + constructor; [|constructor]. split; cbn [dl_url dl_name]; [exact E|].
      unfold or_else.
      destruct (is_empty (findtext (py "downloadname" ++ digit i) [] content)) eqn:En;
        [reflexivity | exact En].
Qed.

Lemma flat_map_filter {A B} (p : A -> bool) (g : A -> B) (l : list A) :
  flat_map (fun a => if p a then [] else [g a]) l =
  map g (List.filter (fun a => negb (p a)) l).
Proof.
  induction l as [|a l IH]; cbn [flat_map List.filter map]; [reflexivity|].
  rewrite IH. by destruct (p a).
Qed.

(** The links are those of the numbers whose link field is not empty, in
    the order of the numbers. *)
Lemma collect_downloads_eq content :
  collect_downloads content =
  map (fun i => {| dl_url := downloadlink content i;
                   dl_name := or_else (findtext (py "downloadname" ++ digit i) [] content)
                                      (py "file" ++ digit i) |})
      (List.filter (fun i => negb (is_empty (downloadlink content i))) (seq 1 9)).
Proof.
  exact (flat_map_filter (fun i => is_empty (downloadlink content i))
           (fun i => {| dl_url := downloadlink content i;
                        dl_name := or_else (findtext (py "downloadname" ++ digit i) [] content)
                                           (py "file" ++ digit i) |})
           (seq 1 9)).
Qed.

Lemma filter_seq_below (p : nat -> bool) (n len : nat) :
  n <= len ->
  (forall i, 1 <= i <= len -> p i = true <-> i <= n) ->
  List.filter p (seq 1 len) = seq 1 n.
Proof.
  intros Hn Hp.
  replace len with (n + (len - n)) by lia.
  rewrite seq_app, List.filter_app.
  assert (H1 : List.filter p (seq 1 n) = seq 1 n).
  { apply forallb_filter_id, forallb_forall. intros i Hi.
    apply in_seq in Hi. apply Hp; lia. }
  assert (H2 : List.filter p (seq (1 + n) (len - n)) = []).
  { assert (Hall : forall i, In i (seq (1 + n) (len - n)) -> p i = false).
    { intros i Hi. apply in_seq in Hi. apply not_true_is_false.
      intros Ht. apply Hp in Ht; lia. }
    revert Hall. generalize (seq (1 + n) (len - n)).
    induction l as [|i l IH]; intros Hall; [reflexivity|].
    cbn [List.filter]. rewrite (Hall i) by (by left).
    apply IH. intros j Hj. apply Hall. by right. }
  rewrite H1, H2. apply app_nil_r.
Qed.

End Fetchers.

(** X1: a response without a content element is no error: the detail
    fetcher returns nothing found, having made its one request. *)
Theorem get_content_details_absent (env : environment) (content_id : str) (w : world)
    (r : http_response) (root : element) :
  remote env (length (requests w)) (details_url content_id) = Some r ->
  is_error_status r = false ->
  document r = Some root ->
  find_below (py "content") root = None ->
  get_content_details env content_id w = (Ok None, logged (details_url content_id) w).
Proof.
  intros Hr He Hd Hc. rewrite get_content_details_eq. by rewrite Hr, He, Hd, Hc.
Qed.

Lemma get_content_details_absent_witness :
  get_content_details empty_handed (py "42") Sample.empty_world =
  (Ok None, logged (details_url (py "42")) Sample.empty_world).
Proof.
  apply (get_content_details_absent empty_handed (py "42") Sample.empty_world
           {| status_code := 200; document := Some (Element (py "ocs") None []);
              body := []; body_breaks := false |}
           (Element (py "ocs") None []));
    reflexivity.
Defined.

(** X2: the detail fetcher makes exactly one request, to the address of the
    plugin, and neither waits nor writes, whatever comes back.  It does not
    retry: no response raises ConnectionError, an error status raises
    HTTPError, a 429 among them, and a body that is not XML raises
    ParseError. *)
Theorem get_content_details_failures (env : environment) (content_id : str) (w : world) :
  (get_content_details env content_id w).2 = logged (details_url content_id) w /\
  (remote env (length (requests w)) (details_url content_id) = None ->
   (get_content_details env content_id w).1 = Raise ConnectionError) /\
  (forall r,
      remote env (length (requests w)) (details_url content_id) = Some r ->
      (400 <= status_code r < 600)%Z ->
      (get_content_details env content_id w).1 = Raise HTTPError) /\
  (forall r,
      remote env (length (requests w)) (details_url content_id) = Some r ->
      status_code r = 429%Z ->
      (get_content_details env content_id w).1 = Raise HTTPError) /\
  (forall r,
      remote env (length (requests w)) (details_url content_id) = Some r ->
      is_error_status r = false ->
      document r = None ->
      (get_content_details env content_id w).1 = Raise ParseError).
Proof.
  rewrite get_content_details_eq. cbn [fst snd]. split; [reflexivity|].
  split; [by intros ->|]. split; [|split].
  - intros r -> Hs. unfold is_error_status.
    destruct (Z.leb_spec 400 (status_code r)); [|lia].
    by destruct (Z.ltb_spec (status_code r) 600); [|lia].
  - intros r -> Hs. unfold is_error_status. by rewrite Hs.
  - by intros r -> -> ->.
Qed.

Lemma get_content_details_failures_witness :
  (get_content_details unreachable (py "42") Sample.empty_world).1 = Raise ConnectionError /\
  (get_content_details details_missing (py "42") Sample.empty_world).1 = Raise HTTPError /\
  (get_content_details throttling (py "42") Sample.empty_world).1 = Raise HTTPError /\
  (get_content_details serving (py "42") Sample.empty_world).1 = Raise ParseError.
Proof.
  split; [|split; [|split]].
  - apply (proj1 (proj2 (get_content_details_failures unreachable (py "42")
                           Sample.empty_world))).
    reflexivity.
  - apply (proj1 (proj2 (proj2 (get_content_details_failures details_missing (py "42")
                                  Sample.empty_world))) not_found).
    + reflexivity.
    + simpl. lia.
  - apply (proj1 (proj2 (proj2 (proj2 (get_content_details_failures throttling (py "42")
                                         Sample.empty_world)))) Sample.too_many_requests);
      reflexivity.
  - apply (proj2 (proj2 (proj2 (proj2 (get_content_details_failures serving (py "42")
                                         Sample.empty_world))))
             {| status_code := 200; document := None;
                body := Sample.archive_bytes; body_breaks := false |});
      reflexivity.
Defined.

(** X3: details that are found list at most nine links, and each of them
    has a URL and a name that are not empty; so the test for an empty URL at
    line 220 never fires on them. *)
Theorem details_links_wellformed (env : environment) (content_id : str) (w : world)
    (d : details) (w' : world) :
  get_content_details env content_id w = (Ok (Some d), w') ->
  length (det_downloads d) <= 9 /\ Forall wellformed_link (det_downloads d).
Proof.
  rewrite get_content_details_eq.
  destruct (remote env _ _) as [r|]; [|discriminate].
  destruct (is_error_status r); [discriminate|].
  destruct (document r) as [root|]; [|discriminate].
  destruct (find_below (py "content") root) as [content|]; [|discriminate].
  intros [= <- _]. cbn [det_downloads]. apply collect_downloads_wellformed.
Qed.

Lemma details_links_wellformed_witness :
  get_content_details scenario (py "42") Sample.empty_world =
    (Ok (Some scenario_found), logged (details_url (py "42")) Sample.empty_world) /\
  length (det_downloads scenario_found) <= 9 /\
  Forall wellformed_link (det_downloads scenario_found).
Proof.
  assert (H : get_content_details scenario (py "42") Sample.empty_world =
              (Ok (Some scenario_found), logged (details_url (py "42")) Sample.empty_world))
    by reflexivity.
  split; [exact H|].
  exact (details_links_wellformed scenario (py "42") Sample.empty_world scenario_found _ H).
Defined.

(** X4: when the link fields 1 to n of a content element are filled and
    the fields after them, up to 9, are empty or missing, the links are
    exactly those n, in the order of their numbers. *)
Theorem details_links_in_order (content : element) (n : nat) :
  n <= 9 ->
  (forall i, 1 <= i <= 9 -> is_empty (downloadlink content i) = false <-> i <= n) ->
  map dl_url (collect_downloads content) = map (downloadlink content) (seq 1 n).
Proof.
  intros Hn Hfilled. rewrite collect_downloads_eq, map_map. cbn [dl_url].
  rewrite (filter_seq_below _ n 9 Hn); [reflexivity|].
  intros i Hi. rewrite negb_true_iff. by apply Hfilled.
Qed.

Lemma details_links_in_order_witness :
  map dl_url (collect_downloads three_links) =
  [py "https://x/a.zip"; py "https://x/b.zip"; py "https://x/c.zip"].
Proof.
  apply (details_links_in_order three_links 3); [lia|].
  intros i Hi.
  assert (Hcases : i = 1 \/ i = 2 \/ i = 3 \/ i = 4 \/ i = 5 \/ i = 6 \/ i = 7 \/ i = 8 \/ i = 9)
    by lia.
  destruct Hcases as [->|[->|[->|[->|[->|[->|[->|[->| ->]]]]]]]];
    (split; [intros H; try lia; vm_compute in H; discriminate H
            | intros H; try lia; reflexivity]).
Defined.

(** X5: when the listing carries a status other than ok, the listing
    fetcher raises an API error with the text of that status. *)
Theorem listing_api_error (env : environment) (w : world) (r : http_response)
    (root status : element) :
  remote env (length (requests w)) listing_url = Some r ->
  is_error_status r = false ->
  document r = Some root ->
  find_below (py "status") root = Some status ->
  etext status <> Some (py "ok") ->
  get_all_content_items env w = (Raise (ApiError (etext status)), logged listing_url w).
Proof.
  intros Hr He Hd Hs Hne. rewrite get_all_content_items_eq, Hr, He, Hd, Hs.
  by rewrite bool_decide_eq_false_2.
Qed.

Lemma listing_api_error_witness :
  get_all_content_items api_down Sample.empty_world =
  (Raise (ApiError (Some (py "failed"))), logged listing_url Sample.empty_world).
Proof.
  apply (listing_api_error api_down Sample.empty_world
           {| status_code := 200; document := Some failing_listing;
              body := []; body_breaks := false |}
           failing_listing (Sample.leaf (py "status") (py "failed")));
    try reflexivity.
  vm_compute. discriminate.
Defined.

(** X6: when the listing arrives, is XML and has no status or the status
    ok, the listing fetcher returns one item for each content element below
    the root, in document order; a field the element lacks is the empty
    string.  It makes one request and changes nothing else. *)
Theorem listing_items (env : environment) (w : world) (r : http_response) (root : element) :
  remote env (length (requests w)) listing_url = Some r ->
  is_error_status r = false ->
  document r = Some root ->
  (forall status, find_below (py "status") root = Some status ->
                  etext status = Some (py "ok")) ->
  get_all_content_items env w =
  (Ok (map item_of (findall_below (py "content") root)), logged listing_url w).
Proof.
  intros Hr He Hd Hs. rewrite get_all_content_items_eq, Hr, He, Hd.
  destruct (find_below (py "status") root) as [status|]; [|reflexivity].
  by rewrite bool_decide_eq_true_2 by (by apply Hs).
Qed.

Lemma listing_items_witness :
  get_all_content_items scenario Sample.empty_world =
  (Ok [plugin_42], logged listing_url Sample.empty_world).
Proof.
  apply (listing_items scenario Sample.empty_world
           {| status_code := 200; document := Some Sample.scenario_listing;
              body := []; body_breaks := false |}
           Sample.scenario_listing); try reflexivity.
  intros status H. vm_compute in H. injection H as <-. reflexivity.
Defined.

(** ** More on the downloader *)

Section DownloaderMore.

Context (env : environment).

Implicit Types (url : str) (w : world) (output_path q : path).

Lemma rejected_attempt url output_path attempt w :
  rejected (remote env (length (requests w)) url) = true ->
  download_attempt env url output_path attempt w = after_failure attempt (logged url w).
Proof.
  intros H. rewrite download_attempt_eq. unfold rejected, is_error_status in H.
  destruct (remote env _ url) as [r|]; [|reflexivity].
  apply andb_true_iff in H as [H429 Herr]. apply negb_true_iff in H429.
  by rewrite H429, Herr.
Qed.

Lemma ensure_dir_preserves (m : gmap (bool * list (list N)) node) q q' x :
  m !! q' = Some x -> ensure_dir m q !! q' = Some x.
Proof.
  intros H. unfold ensure_dir. destruct (m !! q) eqn:E; [exact H|].
  rewrite lookup_insert_ne; [exact H|]. intros ->. congruence.
Qed.

Lemma ensure_dirs_preserve (l : list (bool * list (list N)))
    (m : gmap (bool * list (list N)) node) q' x :
  m !! q' = Some x -> foldl ensure_dir m l !! q' = Some x.
Proof.
  revert m. induction l as [|q l IH]; intros m H; simpl; [exact H|].
  apply IH, ensure_dir_preserves, H.
Qed.

Lemma ensure_dirs_present (l : list (bool * list (list N)))
    (m : gmap (bool * list (list N)) node) q :
  q ∈ l -> is_Some (foldl ensure_dir m l !! q).
Proof.
  revert m. induction l as [|a l IH]; intros m Hin; [by apply elem_of_nil in Hin|].
  simpl. apply elem_of_cons in Hin as [->|Hin]; [|by apply IH].
  apply ensure_dirs_keep. unfold ensure_dir.
  destruct (m !! a) eqn:E; [by rewrite E|]. rewrite lookup_insert_eq. eauto.
Qed.

Lemma saved_preserves output_path r w q x :
  q <> output_path -> fs w !! q = Some x -> fs (saved output_path r w) !! q = Some x.
Proof.
  intros Hne H. unfold saved, set_fs. cbn [fs].
  rewrite lookup_insert_ne by congruence. by apply ensure_dirs_preserve.
Qed.

Lemma download_attempt_preserves url output_path attempt w q x :
  q <> output_path -> fs w !! q = Some x ->
  fs (download_attempt env url output_path attempt w).2 !! q = Some x.
Proof.
  intros Hne H. rewrite download_attempt_eq. unfold after_failure.
  destruct (remote env _ url) as [r|]; repeat case_match; cbn [snd fs waited logged];
    try exact H; by apply saved_preserves.
Qed.

Lemma attempts_preserve url output_path (l : list Z) w q x :
  q <> output_path -> fs w !! q = Some x ->
  fs (for_each l (download_attempt env url output_path) w).2 !! q = Some x.
Proof.
  intros Hne. revert w. induction l as [|a l IH]; intros w H; simpl; [exact H|].
  unfold bind.
  pose proof (download_attempt_preserves url output_path a w q x Hne H) as H1.
  destruct (download_attempt env url output_path a w) as [[[|b]|e] w1];
    simpl in *; [by apply IH | exact H1 | exact H1].
Qed.

End DownloaderMore.

(** X7: when every attempt of a download fails outright, with no response
    or an error status other than 429, the download makes MAX_RETRIES
    requests, waits 10 seconds after the first and 20 after the second, does
    not wait after the last, and returns failure: 30 seconds in all, against
    60 when the answers are 429.  The disk is as it was. *)
Theorem download_transport_failure (env : environment) (url : str) (output_path : path)
    (w : world) :
  (forall n, rejected (remote env n url) = true) ->
  download_file env url output_path w =
  (Ok false,
   World (fs w) (slept w + RETRY_DELAY * (1 + 2)) (requests w ++ replicate MAX_RETRIES url)).
Proof.
  intros H.
  set (w1 := waited (backoff 0) (logged url w)).
  set (w2 := waited (backoff 1) (logged url w1)).
  set (w3 := logged url w2).
  assert (E0 : download_attempt env url output_path (Z.of_nat 0) w = (Ok Next, w1))
    by (rewrite rejected_attempt by apply H; reflexivity).
  assert (E1 : download_attempt env url output_path (Z.of_nat 1) w1 = (Ok Next, w2))
    by (rewrite rejected_attempt by apply H; reflexivity).
  assert (E2 : download_attempt env url output_path (Z.of_nat 2) w2 = (Ok (Return false), w3))
    by (rewrite rejected_attempt by apply H; reflexivity).
  unfold download_file, bind, range, MAX_RETRIES. cbn [seq map for_each].
  unfold bind. rewrite E0. cbv beta iota. rewrite E1. cbv beta iota. rewrite E2.
  cbv beta iota. unfold ret, w3, w2, w1, waited, logged, backoff, RETRY_DELAY.
  cbn [fs slept requests replicate].
  f_equal. f_equal; [lia|]. by rewrite <- !app_assoc.
Qed.

Lemma download_transport_failure_witness :
  download_file unreachable cool_url cool_path Sample.empty_world =
  (Ok false, World ∅ (0 + RETRY_DELAY * (1 + 2)) ([] ++ replicate MAX_RETRIES cool_url)).
Proof.
  apply (download_transport_failure unreachable cool_url cool_path Sample.empty_world).
  intros n. reflexivity.
Defined.






(** ** More on the sanitizer *)

Section SanitizerMore.

Implicit Types (s t chars : list N).

Lemma strip_head chars s c t :
  strip chars s = c :: t -> char_in chars c = false.
Proof.
  unfold strip, rstrip.
  destruct (lstrip_cases chars s) as [-> | (a & s' & -> & Ha)]; [discriminate|].
  cbn [rev]. rewrite lstrip_snoc by exact Ha.
  rewrite rev_app_distr. cbn [rev app]. by intros [= <- _].
Qed.

Lemma sanitize_head name c t :
  sanitize_filename name = c :: t -> char_in (py "._") c = false.
Proof.
  unfold sanitize_filename, or_else.
  destruct (strip _ _) as [|a s] eqn:E; cbn [is_empty].
  - intros [= <- _]. reflexivity.
  - intros [= <- _]. by apply strip_head in E.
Qed.

Lemma split_aux_no_sep (sep : N) (acc s : list N) :
  Forall (fun c => N.eqb c sep = false) s -> split_aux sep acc s = [acc ++ s].
Proof.
  intros H. revert acc. induction H as [|c s Hc Hs IH]; intros acc; cbn [split_aux].
  - by rewrite app_nil_r.
  - rewrite Hc, IH, <- app_assoc. reflexivity.
Qed.

(** A string without a slash that is neither empty nor a single dot is one
    path component. *)
Lemma segments_single s :
  Forall (fun c => N.eqb c 47 = false) s -> s <> [] -> s <> [46%N] ->
  segments s = [s].
Proof.
  intros Hs Hne Hdot. unfold segments, split. rewrite split_aux_no_sep by exact Hs.
  cbn [app List.filter].
  assert (He : is_empty s = false) by (by destruct s).
  assert (Hd : str_eqb s [46%N] = false) by (by apply bool_decide_eq_false_2).
  by rewrite He, Hd.
Qed.

Lemma safe_char_no_slash (c : N) : safe_char c -> N.eqb c 47 = false.
Proof.
  intros [Hf _]. destruct (N.eqb_spec c 47) as [->|]; [discriminate Hf | reflexivity].
Qed.

End SanitizerMore.

(** X11: the directory of a plugin lies directly in OUTPUT_DIR, whatever the
    plugin is called: its sanitized name is one path component, without a
    slash, and neither "." nor "..". *)
Theorem plugin_dir_is_child (name : str) :
  joinpath OUTPUT_DIR (sanitize_filename name)
  = (false, [py "wallpaper-example"; sanitize_filename name]) /\
  sanitize_filename name <> py "." /\
  sanitize_filename name <> py "..".
Proof.
  pose proof (sanitize_safe name) as Hsafe.
  pose proof (sanitize_nonempty name) as Hne.
  pose proof (sanitize_head name) as Hhead.
  destruct (sanitize_filename name) as [|c t] eqn:E; [done|].
  specialize (Hhead c t eq_refl).
  assert (Hc : c <> 46%N) by (intros ->; discriminate Hhead).
  assert (Hslash : Forall (fun c => N.eqb c 47 = false) (c :: t)).
  { eapply Forall_impl; [exact Hsafe|]. apply safe_char_no_slash. }
  split; [|split].
  - unfold joinpath. cbn [startswith].
    rewrite (N.eqb_sym 47 c), (Forall_inv Hslash). cbn [andb].
    rewrite segments_single; [reflexivity | exact Hslash | done | congruence].
  - intros [= -> _]. done.
  - intros [= -> _]. done.
Qed.

(** X12: a name that is already clean is kept as it is: no forbidden
    character, no white space, and neither a dot nor an underscore at its
    beginning or at its end. *)
Theorem sanitize_keeps_clean_names (t t1 t2 : str) (a b : N) :
  Forall safe_char t ->
  t = a :: t1 ->
  t = t2 ++ [b] ->
  char_in (py "._") a = false ->
  char_in (py "._") b = false ->
  sanitize_filename t = t.
Proof.
  intros Hsafe Ha Hb Hfirst Hlast. apply sanitize_fixed; [exact Hsafe | | by rewrite Ha].
  unfold strip, rstrip.
  assert (Hl : lstrip (py "._") t = t) by (rewrite Ha; by apply lstrip_head).
  rewrite Hl, Hb, rev_app_distr. cbn [rev app].
  rewrite lstrip_head by exact Hlast.
  cbn [rev]. by rewrite rev_involutive.
Qed.

Lemma sanitize_keeps_clean_names_witness :
  sanitize_filename (py "Cool_Wall.paper") = py "Cool_Wall.paper".
Proof.
  apply (sanitize_keeps_clean_names (py "Cool_Wall.paper") (py "ool_Wall.paper")
           (py "Cool_Wall.pape") 67%N 114%N); try reflexivity.
  vm_compute. repeat constructor.
Defined.

(** ** More on the orchestrator *)

Section Orchestrator.

Context (env : environment).

Implicit Types (c : counters) (dl : download) (w : world).

Lemma process_link_total plugin_name plugin_dir c dl w :
  exists c' w',
    process_link env plugin_name plugin_dir c dl w = (Ok c', w') /\
    total c' = (total c + (if kept env plugin_name dl then 1 else 0))%Z /\
    (downloaded_count c <= downloaded_count c')%Z /\
    (failed_count c <= failed_count c')%Z /\
    (skipped_count c <= skipped_count c')%Z.
Proof.
  unfold process_link, kept.
  destruct (is_empty (dl_url dl)); cbn [negb andb].
  { exists c, w. split_and!; [done | lia | lia | lia | lia]. }
  destruct (target_filename env plugin_name dl) as [filename|].
  - destruct (save_link_counts env plugin_dir c (dl_url dl) filename w)
      as (c' & w' & -> & Hc).
    exists c', w'. split; [reflexivity|].
    unfold total. destruct Hc as [-> | [-> | ->]]; cbn; split_and!; lia.
  - exists c, w. split_and!; [done | lia | lia | lia | lia].
Qed.

(** Lines 251-254, by whether the src directory is there. *)
Lemma save_link_after_download plugin_dir c url filename w w1 :
  fs w !! joinpath plugin_dir filename = None ->
  download_file env url (joinpath plugin_dir filename) (waited DELAY_BETWEEN_REQUESTS w)
    = (Ok true, w1) ->
  save_link env plugin_dir c url filename w =
  (Ok (add_downloaded c),
   if fs w1 !! joinpath plugin_dir (py "src") is Some _ then w1
   else (extract_archive env (joinpath plugin_dir filename)
           (joinpath plugin_dir (py "src")) w1).2).
Proof.
  intros Hp Hd. unfold save_link. unfold bind at 1. unfold path_exists at 1.
  rewrite Hp. unfold bind at 1. unfold sleep. unfold bind at 1.
  unfold waited in Hd. rewrite Hd.
  unfold bind, path_exists.
  destruct (fs w1 !! joinpath plugin_dir (py "src")); cbn [negb]; [reflexivity|].
  destruct (extract_archive_returns env (joinpath plugin_dir filename)
              (joinpath plugin_dir (py "src")) w1) as (b & w2 & ->).
  reflexivity.
Qed.

(** The loop over the links returns, and counts the links that are not
    passed over. *)
Lemma links_accounting_loop plugin_name plugin_dir (links : list download) c w :
  exists c' w',
    for_acc links (process_link env plugin_name plugin_dir) c w = (Ok c', w') /\
    total c' = (total c + Z.of_nat (length (List.filter (kept env plugin_name) links)))%Z.
Proof.
  revert c w. induction links as [|dl links IH]; intros c w.
  - exists c, w. cbn. split; [done | lia].
  - cbn [for_acc List.filter]. unfold bind.
    destruct (process_link_total plugin_name plugin_dir c dl w)
      as (ca & wa & -> & Ht & _).
    destruct (IH ca wa) as (c' & w' & -> & Ht').
    exists c', w'. split; [reflexivity|].
    destruct (kept env plugin_name dl); cbn [length] in *; lia.
Qed.

End Orchestrator.


(** X14: an archive is unpacked only if the plugin has no src directory
    yet.  After a successful download, if src is there the extractor is not
    run and the world is the one the download left; if not, the extractor
    runs, and whatever it returns the link counts as downloaded. *)
Theorem unpack_only_once (env : environment) (plugin_dir : path) (c : counters)
    (url filename : str) (w w1 : world) :
  fs w !! joinpath plugin_dir filename = None ->
  download_file env url (joinpath plugin_dir filename) (waited DELAY_BETWEEN_REQUESTS w)
    = (Ok true, w1) ->
  (is_Some (fs w1 !! joinpath plugin_dir (py "src")) ->
   save_link env plugin_dir c url filename w = (Ok (add_downloaded c), w1)) /\
  (fs w1 !! joinpath plugin_dir (py "src") = None ->
   save_link env plugin_dir c url filename w =
   (Ok (add_downloaded c),
    (extract_archive env (joinpath plugin_dir filename)
       (joinpath plugin_dir (py "src")) w1).2)).
Proof.
  intros Hp Hd.
  rewrite (save_link_after_download env plugin_dir c url filename w w1 Hp Hd).
  split.
  - intros [x ->]. reflexivity.
  - intros ->. reflexivity.
Qed.

Lemma unpack_only_once_witness :
  (let w1 := (download_file serving (dl_url plugin_zip_link) (plugin_file "plugin.zip")
                (waited DELAY_BETWEEN_REQUESTS with_src)).2 in
   save_link serving (plugin_dir_of "plugin") (Counters 0 0 0)
     (dl_url plugin_zip_link) (py "plugin.zip") with_src
   = (Ok (Counters 1 0 0), w1)) /\
  (let w1 := (download_file serving (dl_url plugin_zip_link) (plugin_file "plugin.zip")
                (waited DELAY_BETWEEN_REQUESTS Sample.empty_world)).2 in
   save_link serving (plugin_dir_of "plugin") (Counters 0 0 0)
     (dl_url plugin_zip_link) (py "plugin.zip") Sample.empty_world
   = (Ok (Counters 1 0 0),
      (extract_archive serving (plugin_file "plugin.zip") plugin_src w1).2)).
Proof.
  split; intros w1.
  - apply (proj1 (unpack_only_once serving (plugin_dir_of "plugin") (Counters 0 0 0)
                    (dl_url plugin_zip_link) (py "plugin.zip") with_src w1
                    eq_refl
                    (run_result (download_file serving (dl_url plugin_zip_link)
                                   (plugin_file "plugin.zip"))
                       (waited DELAY_BETWEEN_REQUESTS with_src) (Ok true)
                       ltac:(vm_compute; reflexivity)))).
    vm_compute. eauto.
  - apply (proj2 (unpack_only_once serving (plugin_dir_of "plugin") (Counters 0 0 0)
                    (dl_url plugin_zip_link) (py "plugin.zip") Sample.empty_world w1
                    eq_refl
                    (run_result (download_file serving (dl_url plugin_zip_link)
                                   (plugin_file "plugin.zip"))
                       (waited DELAY_BETWEEN_REQUESTS Sample.empty_world) (Ok true)
                       ltac:(vm_compute; reflexivity)))).
    vm_compute. reflexivity.
Defined.

(** ** Pacing *)

Section Pacing.

Context (env : environment).

Implicit Types (c : counters) (dl : download) (w : world) (url : str).

Lemma paced_refl w : paced w w.
Proof. unfold paced, DELAY_BETWEEN_REQUESTS. split; lia. Qed.

Lemma paced_trans w1 w2 w3 : paced w1 w2 -> paced w2 w3 -> paced w1 w3.
Proof. unfold paced, DELAY_BETWEEN_REQUESTS. intros [? ?] [? ?]. split; lia. Qed.

(** One attempt makes one request; when the loop goes on after it, the
    script has slept at least RETRY_DELAY seconds. *)
Lemma download_attempt_step url output_path attempt w res w' :
  (0 <= attempt)%Z ->
  download_attempt env url output_path attempt w = (res, w') ->
  length (requests w') = S (length (requests w)) /\
  (slept w <= slept w')%Z /\
  (res = Ok Next -> (slept w' - slept w >= RETRY_DELAY)%Z).
Proof.
  intros Ha. rewrite download_attempt_eq.
  assert (Hfail : forall w0,
             length (requests w0) = S (length (requests w)) ->
             slept w0 = slept w ->
             after_failure attempt w0 = (res, w') ->
             length (requests w') = S (length (requests w)) /\
             (slept w <= slept w')%Z /\
             (res = Ok Next -> (slept w' - slept w >= RETRY_DELAY)%Z)).
  { intros w0 Hlen Hsl. unfold after_failure, backoff, RETRY_DELAY.
    destruct (attempt <? _)%Z; intros [= <- <-]; cbn [waited requests slept].
    - split_and!; [exact Hlen | lia | intros _; lia].
    - split_and!; [exact Hlen | lia | discriminate]. }
  assert (Hlog : length (requests (logged url w)) = S (length (requests w))).
  { unfold logged. cbn [requests]. rewrite length_app. cbn. lia. }
  destruct (remote env _ url) as [r|]; [|by apply Hfail].
  destruct (status_code r =? 429)%Z.
  { intros [= <- <-]. unfold backoff, RETRY_DELAY. cbn [waited requests slept logged].
    rewrite length_app. cbn. split_and!; [lia | lia | intros _; lia]. }
  destruct ((400 <=? status_code r)%Z && (status_code r <? 600)%Z); [by apply Hfail|].
  destruct (body_breaks r); [by apply Hfail|].
  intros [= <- <-]. split_and!; [exact Hlog | reflexivity | discriminate].
Qed.

Lemma attempts_paced url output_path (l : list Z) w res w' :
  Forall (fun a => (0 <= a)%Z) l ->
  for_each l (download_attempt env url output_path) w = (res, w') ->
  length (requests w) <= length (requests w') /\
  (slept w' - slept w + DELAY_BETWEEN_REQUESTS >=
   DELAY_BETWEEN_REQUESTS *
   (Z.of_nat (length (requests w')) - Z.of_nat (length (requests w))))%Z.
Proof.
  intros Hl. revert w. induction Hl as [|a l Ha Hl IH]; intros w; cbn [for_each].
  - intros [= <- <-]. unfold DELAY_BETWEEN_REQUESTS. split; lia.
  - unfold bind.
    destruct (download_attempt env url output_path a w) as [r1 w1] eqn:E1.
    apply download_attempt_step in E1 as (Hlen & Hsl & Hnext); [|exact Ha].
    unfold DELAY_BETWEEN_REQUESTS, RETRY_DELAY in *.
    destruct r1 as [[|b]|e].
    + intros Hrest. apply IH in Hrest as [Hlen' Hsl'].
      specialize (Hnext eq_refl). split; lia.
    + intros [= <- <-]. split; lia.
    + intros [= <- <-]. split; lia.
Qed.

Lemma range_nonneg (n : nat) : Forall (fun a => (0 <= a)%Z) (range n).
Proof. unfold range. apply Forall_fmap, Forall_forall. intros k _. cbn. lia. Qed.

Lemma download_file_paced url output_path w res w' :
  download_file env url output_path w = (res, w') ->
  length (requests w) <= length (requests w') /\
  (slept w' - slept w + DELAY_BETWEEN_REQUESTS >=
   DELAY_BETWEEN_REQUESTS *
   (Z.of_nat (length (requests w')) - Z.of_nat (length (requests w))))%Z.
Proof.
  unfold download_file, bind.
  destruct (for_each _ _ w) as [r1 w1] eqn:E.
  apply attempts_paced in E; [|apply range_nonneg].
  destruct r1 as [[|b]|e]; by intros [= <- <-].
Qed.

(** The extractor neither waits nor asks the server anything. *)
Lemma extract_archive_quiet archive_path extract_dir w :
  slept (extract_archive env archive_path extract_dir w).2 = slept w /\
  requests (extract_archive env archive_path extract_dir w).2 = requests w.
Proof.
  destruct (existsb (endswith (path_str archive_path)) tar_suffixes) eqn:Ht.
  - by rewrite extract_archive_tar.
  - destruct (endswith (path_str archive_path) (py ".zip")) eqn:Hz.
    + by rewrite extract_archive_zip.
    + by rewrite extract_archive_other.
Qed.

Lemma save_link_paced plugin_dir c url filename w :
  paced w (save_link env plugin_dir c url filename w).2.
Proof.
  unfold save_link. unfold bind at 1. unfold path_exists at 1.
  destruct (fs w !! joinpath plugin_dir filename); [apply paced_refl|].
  unfold bind at 1. unfold sleep. unfold bind at 1.
  set (w0 := World (fs w) (slept w + DELAY_BETWEEN_REQUESTS) (requests w)).
  destruct (download_file env url _ w0) as [r1 w1] eqn:E.
  apply download_file_paced in E as [Hlen Hsl].
  assert (H1 : paced w w1).
  { unfold paced. subst w0. cbn [slept requests] in *. split; lia. }
  destruct r1 as [[|]|e]; [|exact H1|exact H1].
  unfold bind, path_exists.
  destruct (fs w1 !! joinpath plugin_dir (py "src")); cbn [negb]; [exact H1|].
  destruct (extract_archive_quiet (joinpath plugin_dir filename)
              (joinpath plugin_dir (py "src")) w1) as [Hs Hr].
  destruct (extract_archive_returns env (joinpath plugin_dir filename)
              (joinpath plugin_dir (py "src")) w1) as (b & w2 & Heq).
  rewrite Heq in Hs, Hr |- *. cbn [snd] in Hs, Hr. unfold ret. cbn [snd].
  unfold paced in *. rewrite Hs, Hr. exact H1.
Qed.

Lemma process_link_paced plugin_name plugin_dir c dl w :
  paced w (process_link env plugin_name plugin_dir c dl w).2.
Proof.
  unfold process_link.
  destruct (is_empty (dl_url dl)); [apply paced_refl|].
  destruct (target_filename env plugin_name dl); [|apply paced_refl].
  apply save_link_paced.
Qed.

Lemma for_acc_paced {A} (step : counters -> A -> M counters) (l : list A) c w :
  (forall c a w, paced w (step c a w).2) ->
  paced w (for_acc l step c w).2.
Proof.
  intros Hstep. revert c w. induction l as [|a l IH]; intros c w; cbn [for_acc].
  - apply paced_refl.
  - unfold bind. pose proof (Hstep c a w) as H1.
    destruct (step c a w) as [[ca|e] wa]; cbn [snd] in *; [|exact H1].
    eapply paced_trans; [exact H1 | apply IH].
Qed.

Lemma process_item_paced c it w :
  paced w (process_item env c it w).2.
Proof.
  unfold process_item, bind, sleep.
  set (w0 := World (fs w) (slept w + DELAY_BETWEEN_REQUESTS) (requests w)).
  rewrite get_content_details_eq.
  assert (H1 : paced w (logged (details_url (item_id it)) w0)).
  { unfold paced, logged, w0, DELAY_BETWEEN_REQUESTS. cbn [slept requests].
    rewrite length_app. cbn [length]. split; lia. }
  destruct (remote env _ _) as [r|]; [|exact H1].
  destruct (is_error_status r); [exact H1|].
  destruct (document r) as [root|]; [|exact H1].
  destruct (find_below (py "content") root) as [content|]; [|exact H1].
  cbn [det_downloads].
  destruct (collect_downloads content) as [|dl l] eqn:El; [exact H1|].
  eapply paced_trans; [exact H1|].
  apply for_acc_paced. intros. apply process_link_paced.
Qed.

End Pacing.


(** ** How a run ends *)

Section Runs.

Context (env : environment).

Implicit Types (c : counters) (w : world).

(** The run once OUTPUT_DIR is made. *)
Lemma main_eq w :
  main env w =
  (items <~ get_all_content_items env ;;
   for_acc items (process_item env) (Counters 0 0 0)) (prepared w).
Proof. reflexivity. Qed.

Lemma for_acc_app {A} (step : counters -> A -> M counters) (l1 l2 : list A) c w :
  for_acc (l1 ++ l2) step c w =
  (c' <~ for_acc l1 step c ;; for_acc l2 step c') w.
Proof.
  revert c w. induction l1 as [|a l1 IH]; intros c w; cbn [app for_acc].
  - reflexivity.
  - unfold bind. destruct (step c a w) as [[ca|e] wa]; [|reflexivity].
    rewrite IH. reflexivity.
Qed.

(** A plugin whose detail lookup raises makes the loop body raise. *)
Lemma process_item_raises c it w e :
  (get_content_details env (item_id it) (waited DELAY_BETWEEN_REQUESTS w)).1 = Raise e ->
  process_item env c it w =
  (Raise e, logged (details_url (item_id it)) (waited DELAY_BETWEEN_REQUESTS w)).
Proof.
  intros H. unfold process_item, bind, sleep.
  change (World (fs w) (slept w + DELAY_BETWEEN_REQUESTS) (requests w))
    with (waited DELAY_BETWEEN_REQUESTS w).
  rewrite get_content_details_eq in H |- *. cbn [fst] in H. by rewrite H.
Qed.

Section Keeping.

Hypothesis Htar : keeps_files (tar_extractall env).
Hypothesis Hzip : keeps_files (zip_extractall env).

Lemma save_link_keeps plugin_dir c url filename w :
  within (fs w) (fs (save_link env plugin_dir c url filename w).2).
Proof using Htar Hzip.
  unfold save_link. unfold bind at 1. unfold path_exists at 1.
  destruct (fs w !! joinpath plugin_dir filename); [apply within_refl|].
  unfold bind at 1. unfold sleep. unfold bind at 1.
  set (w0 := World (fs w) (slept w + DELAY_BETWEEN_REQUESTS) (requests w)).
  pose proof (download_file_keeps env url (joinpath plugin_dir filename) w0) as Hkeep.
  destruct (download_file env url _ w0) as [[[|]|e] w1]; cbn [snd] in *;
    [|exact Hkeep|exact Hkeep].
  destruct (unpack_keeps env Htar Hzip (joinpath plugin_dir filename)
              (joinpath plugin_dir (py "src")) (add_downloaded c) w1) as (w2 & -> & Hw2).
  cbn [snd]. intros q Hq. by apply Hw2, Hkeep.
Qed.

Lemma process_item_keeps_files c it w :
  within (fs w) (fs (process_item env c it w).2).
Proof using Htar Hzip.
  unfold process_item, bind, sleep. rewrite get_content_details_eq.
  destruct (remote env _ _) as [r|]; [|apply within_refl].
  destruct (is_error_status r); [apply within_refl|].
  destruct (document r) as [root|]; [|apply within_refl].
  destruct (find_below (py "content") root) as [content|]; [|apply within_refl].
  cbn [det_downloads].
  destruct (collect_downloads content) as [|dl l]; [apply within_refl|].
  apply (for_acc_keeps (process_link env (sanitize_filename (item_name it))
                          (joinpath OUTPUT_DIR (sanitize_filename (item_name it))))
           (dl :: l) c
           (logged (details_url (item_id it))
              (World (fs w) (slept w + DELAY_BETWEEN_REQUESTS) (requests w)))).
  intros c0 dl0 w0. unfold process_link.
  destruct (is_empty (dl_url dl0)); [apply within_refl|].
  destruct (target_filename env _ dl0); [apply save_link_keeps | apply within_refl].
Qed.

End Keeping.

End Runs.

(** X16: a listing that cannot be had ends the run.  Whatever makes the
    listing fetcher raise (no response, an error status, a body that is not
    XML, a status other than ok), main raises the same; by then it has made
    OUTPUT_DIR and the one request for the listing, and nothing else. *)
Theorem main_listing_failure (env : environment) (w : world) (e : exn) :
  (get_all_content_items env (prepared w)).1 = Raise e ->
  main env w = (Raise e, logged listing_url (prepared w)).
Proof.
  intros H. rewrite main_eq. unfold bind.
  rewrite get_all_content_items_eq in H |- *. cbn [fst] in H. by rewrite H.
Qed.

Lemma main_listing_failure_witness :
  main api_down Sample.empty_world =
  (Raise (ApiError (Some (py "failed"))), logged listing_url (prepared Sample.empty_world)).
Proof.
  apply (main_listing_failure api_down Sample.empty_world). reflexivity.
Defined.

(** X17: a detail lookup that raises ends the run too: there is no handler
    around it.  When the plugins before it went through and the lookup of
    the next one raises, main raises the same; the counters gathered so far
    are not reported, and the plugins after it are never asked for. *)
Theorem main_detail_failure (env : environment) (w wb w1 : world)
    (done rest : list item) (it : item) (c : counters) (e : exn) :
  get_all_content_items env (prepared w) = (Ok (done ++ it :: rest), wb) ->
  for_acc done (process_item env) (Counters 0 0 0) wb = (Ok c, w1) ->
  (get_content_details env (item_id it) (waited DELAY_BETWEEN_REQUESTS w1)).1 = Raise e ->
  main env w =
  (Raise e, logged (details_url (item_id it)) (waited DELAY_BETWEEN_REQUESTS w1)).
Proof.
  intros Hlist Hdone Hit. rewrite main_eq. unfold bind at 1. rewrite Hlist.
  rewrite for_acc_app. unfold bind at 1. rewrite Hdone.
  cbn [for_acc]. unfold bind. by rewrite (process_item_raises env c it w1 e Hit).
Qed.

Lemma main_detail_failure_witness :
  main details_missing Sample.empty_world =
  (Raise HTTPError,
   logged (details_url (py "42"))
     (waited DELAY_BETWEEN_REQUESTS (logged listing_url (prepared Sample.empty_world)))).
Proof.
  apply (main_detail_failure details_missing Sample.empty_world
           (logged listing_url (prepared Sample.empty_world))
           (logged listing_url (prepared Sample.empty_world))
           [] [] plugin_42 (Counters 0 0 0) HTTPError); reflexivity.
Defined.

(** X18: a run deletes nothing.  As long as the archive libraries remove
    nothing, whatever was on the disk before a run is there after it,
    whatever the server answers and however the run ends. *)
Theorem main_keeps_files (env : environment) (w : world) (q : path) :
  keeps_files (tar_extractall env) ->
  keeps_files (zip_extractall env) ->
  is_Some (fs w !! q) ->
  is_Some (fs (main env w).2 !! q).
Proof.
  intros Htar Hzip Hq. rewrite main_eq. unfold bind.
  rewrite get_all_content_items_eq.
  assert (H0 : is_Some (fs (logged listing_url (prepared w)) !! q)).
  { unfold logged, prepared, set_fs. cbn [fs]. by apply ensure_dir_keeps. }
  assert (Hloop : forall items,
    is_Some (fs (for_acc items (process_item env) (Counters 0 0 0)
                   (logged listing_url (prepared w))).2 !! q)).
  { intros items. apply (for_acc_keeps (process_item env) items); [|exact H0].
    intros. by apply process_item_keeps_files. }
  destruct (remote env _ _) as [r|]; [|exact H0].
  destruct (is_error_status r); [exact H0|].
  destruct (document r) as [root|]; [|exact H0].
  destruct (find_below (py "status") root) as [status|]; [|apply Hloop].
  destruct (bool_decide _); [apply Hloop | exact H0].
Qed.

Lemma main_keeps_files_witness :
  is_Some (fs (main scenario with_notes).2 !! notes_path).
Proof.
  apply (main_keeps_files scenario with_notes notes_path).
  - apply unpack_nothing_keeps_files.
  - apply unpack_nothing_keeps_files.
  - vm_compute. eauto.
Defined.


